(** * Manage_Engine: the JSON -> table core of [newapp.py]

    A shallow embedding of the record locator ([find_first_list]), the
    table conversion ([json_to_dataframe]), the column projection
    ([pick_preferred_columns]), the two request wrappers
    ([safe_request_post], [safe_request_get]) and the response handling of
    [view_request_flow], with the properties the specification states
    about them. *)

From Stdlib Require Import List String Ascii ZArith Bool Lia Permutation DecimalString.
Import ListNotations.
Open Scope string_scope.

(* ------------------------------------------------------------------ *)
(** ** Parsed JSON values, as Python sees them *)

Module Json.

(** What [json.loads] / [Response.json] hand back: [None], [bool], a
    number, [str], [list] or [dict].  A [dict] keeps its insertion order,
    so it is an association list; its keys are meant to be unique.
    Numbers are kept as integers: no property below looks inside one. *)
#[local] Unset Elimination Schemes.
Inductive json : Type :=
| JNull
| JBool (b : bool)
| JNum (n : Z)
| JStr (s : string)
| JList (items : list json)
| JDict (d : list (string * json)).
#[local] Set Elimination Schemes.

Definition pydict : Type := list (string * json).

(** Induction through both containers. *)
Section JsonInd.
Variable P : json -> Prop.
Hypothesis HNull : P JNull.
Hypothesis HBool : forall b, P (JBool b).
Hypothesis HNum : forall n, P (JNum n).
Hypothesis HStr : forall s, P (JStr s).
Hypothesis HList : forall items, Forall P items -> P (JList items).
Hypothesis HDict : forall d, Forall (fun kv => P (snd kv)) d -> P (JDict d).

Fixpoint json_rect2 (v : json) : P v :=
  match v with
  | JNull => HNull
  | JBool b => HBool b
  | JNum n => HNum n
  | JStr s => HStr s
  | JList items =>
      HList items
        ((fix all (l : list json) : Forall P l :=
            match l with
            | [] => Forall_nil _
            | x :: r => Forall_cons _ (json_rect2 x) (all r)
            end) items)
  | JDict d =>
      HDict d
        ((fix all (l : list (string * json)) : Forall (fun kv => P (snd kv)) l :=
            match l with
            | [] => Forall_nil _
            | kv :: r => Forall_cons _ (json_rect2 (snd kv)) (all r)
            end) d)
  end.
End JsonInd.

(** [x is None] *)
Definition is_none (v : json) : bool :=
  match v with JNull => true | _ => false end.

(** [isinstance(x, list)] *)
Definition isinstance_list (v : json) : bool :=
  match v with JList _ => true | _ => false end.

(** [isinstance(x, dict)] *)
Definition isinstance_dict (v : json) : bool :=
  match v with JDict _ => true | _ => false end.

(** Python truthiness of a parsed value ([if parsed:]). *)
Definition truthy (v : json) : bool :=
  match v with
  | JNull => false
  | JBool b => b
  | JNum n => negb (Z.eqb n 0)
  | JStr s => negb (String.eqb s EmptyString)
  | JList items => match items with [] => false | _ => true end
  | JDict d => match d with [] => false | _ => true end
  end.

(** [d[k]] when [k in d]: the entry stored under [k]. *)
Fixpoint dict_get {A : Type} (d : list (string * A)) (k : string) : option A :=
  match d with
  | [] => None
  | (k', v) :: rest => if String.eqb k' k then Some v else dict_get rest k
  end.

(** [d[k] = v]: an existing key keeps its place, a new key goes last. *)
Fixpoint dict_set {A : Type} (d : list (string * A)) (k : string) (v : A)
  : list (string * A) :=
  match d with
  | [] => [(k, v)]
  | (k', v') :: rest =>
      if String.eqb k' k then (k', v) :: rest else (k', v') :: dict_set rest k v
  end.

(** A value occurs within a structure: the structure itself, an element
    of one of its lists, or a value of one of its mappings, at any depth. *)
Inductive occurs_in (x : json) : json -> Prop :=
| occurs_here : occurs_in x x
| occurs_item : forall items v, In v items -> occurs_in x v -> occurs_in x (JList items)
| occurs_value : forall d k v, In (k, v) d -> occurs_in x v -> occurs_in x (JDict d).

(** Some list sits somewhere inside the value, reached through mappings. *)
Fixpoint contains_list (v : json) : bool :=
  match v with
  | JList _ => true
  | JDict d =>
      (fix any (l : list (string * json)) : bool :=
         match l with
         | [] => false
         | (_, x) :: r => contains_list x || any r
         end) d
  | _ => false
  end.

Definition any_value_contains_list (d : pydict) : bool :=
  existsb (fun kv => contains_list (snd kv)) d.

End Json.

(* ------------------------------------------------------------------ *)
(** ** The record locator: [find_first_list] *)

Module Locator.
Import Json.

(** [preferred_keys] of [find_first_list], in its declared order. *)
Definition preferred_keys : list string :=
  ["requests"; "request"; "data"; "result"; "results"; "records"; "response"].

(** [k in obj and isinstance(obj[k], list)] *)
Definition holds_list (obj : pydict) (k : string) : bool :=
  match dict_get obj k with
  | Some v => isinstance_list v
  | None => false
  end.

(** The loop [for k in preferred_keys: if ...: return obj[k]]; [None]
    when the loop runs to its end without returning. *)
Fixpoint preferred_loop (obj : pydict) (ks : list string) : option json :=
  match ks with
  | [] => None
  | k :: ks' =>
      match dict_get obj k with
      | Some v => if isinstance_list v then Some v else preferred_loop obj ks'
      | None => preferred_loop obj ks'
      end
  end.

(** [find_first_list(obj)].  Python's [None] is [JNull]. *)
Fixpoint find_first_list (obj : json) : json :=
  match obj with
  | JNull => JNull
  | JList _ => obj
  | JDict d =>
      match preferred_loop d preferred_keys with
      | Some found => found
      | None =>
          (fix values_loop (items : list (string * json)) : json :=
             match items with
             | [] => JNull
             | (_, v) :: rest =>
                 let found := find_first_list v in
                 if is_none found then values_loop rest else found
             end) d
      end
  | _ => JNull
  end.

(** The second loop of the [dict] branch, [for v in obj.values(): ...],
    followed by the final [return None]. *)
Fixpoint values_loop (items : pydict) : json :=
  match items with
  | [] => JNull
  | (_, v) :: rest =>
      let found := find_first_list v in
      if is_none found then values_loop rest else found
  end.

(** The locator as the specification words it (4.1): a sequence is
    its own answer; in a mapping the first priority key, in declared
    order, that holds a list wins; otherwise the values are searched
    depth-first in insertion order, and the first value with a list
    somewhere below it gives the answer. *)
Inductive locates : json -> list json -> Prop :=
| locates_self : forall l, locates (JList l) l
| locates_priority : forall d before k after l,
    preferred_keys = (before ++ k :: after)%list ->
    (forall k', In k' before -> holds_list d k' = false) ->
    dict_get d k = Some (JList l) ->
    locates (JDict d) l
| locates_nested : forall d before k v after l,
    (forall k', In k' preferred_keys -> holds_list d k' = false) ->
    d = (before ++ (k, v) :: after)%list ->
    Forall (fun kv => contains_list (snd kv) = false) before ->
    locates v l ->
    locates (JDict d) l.

End Locator.

(* ------------------------------------------------------------------ *)
(** ** Python calls that return or raise *)

Module Py.

(** A raised exception, as far as the handlers of this program look at
    it: which of the two classes named in an [except] clause it is an
    instance of, and its [str(e)]. *)
Record exn : Type := {
  isinstance_RequestException : bool;
  isinstance_ValueError : bool;
  str : string
}.

Inductive outcome (A : Type) : Type :=
| Returns (a : A)
| Raises (e : exn).
Arguments Returns {A} a.
Arguments Raises {A} e.

(** [KeyError], [UnboundLocalError] (a [NameError]) and
    [NotImplementedError] are instances of neither class. *)
Definition KeyError (msg : string) : exn :=
  {| isinstance_RequestException := false; isinstance_ValueError := false; str := msg |}.
Definition UnboundLocalError (name : string) : exn :=
  {| isinstance_RequestException := false; isinstance_ValueError := false;
     str := "cannot access local variable '" ++ name
            ++ "' where it is not associated with a value" |}.
Definition NotImplementedError : exn :=
  {| isinstance_RequestException := false; isinstance_ValueError := false; str := EmptyString |}.

(** [try: body except Exception: handler] *)
Definition try_except {A : Type} (body : outcome A) (handler : outcome A) : outcome A :=
  match body with
  | Returns a => Returns a
  | Raises _ => handler
  end.

(** [sub in s] on strings. *)
Fixpoint str_contains (sub s : string) : bool :=
  if String.prefix sub s then true
  else match s with
       | EmptyString => false
       | String _ s' => str_contains sub s'
       end.

(** [s.replace(' ', '_')] *)
Fixpoint replace_space (s : string) : string :=
  match s with
  | EmptyString => EmptyString
  | String c s' =>
      String (if Ascii.eqb c " "%char then "_"%char else c) (replace_space s')
  end.

(** [s.lower()] for ASCII text, where the letters A-Z are the only
    characters that change.  On text with letters outside ASCII Python's
    [lower] does more and may change the length, which this function
    does not follow: what is proved through it is stated for ASCII text
    (the titles the program passes are ASCII literals). *)
Definition lower_ascii (c : ascii) : ascii :=
  let n := nat_of_ascii c in
  if andb (Nat.leb 65 n) (Nat.leb n 90) then ascii_of_nat (n + 32) else c.

Fixpoint lower (s : string) : string :=
  match s with
  | EmptyString => EmptyString
  | String c s' => String (lower_ascii c) (lower s')
  end.

End Py.

(* ------------------------------------------------------------------ *)
(** ** Tables: the part of pandas the program relies on *)

Module Pandas.
Import Json Py.

(** A column label: a string when the frame is built from mappings, a
    position when pandas numbers the columns itself. *)
Inductive label : Type :=
| LStr (s : string)
| LInt (i : Z).

Definition label_eqb (a b : label) : bool :=
  match a, b with
  | LStr s, LStr t => String.eqb s t
  | LInt i, LInt j => Z.eqb i j
  | _, _ => false
  end.

(** A cell holds a value, or nothing when the row had no entry for the
    column (pandas' NaN). *)
Definition cell : Type := option json.

(** A frame: its column labels and its rows, each row listing its cells
    in column order. *)
Record DataFrame : Type := {
  columns : list label;
  rows : list (list cell)
}.

(** [pd.DataFrame()] *)
Definition empty_frame : DataFrame := {| columns := []; rows := [] |}.

(** [df.empty], as pandas documents it: some axis has length zero. *)
Definition empty (df : DataFrame) : bool :=
  match columns df, rows df with
  | [], _ => true
  | _, [] => true
  | _, _ => false
  end.

(** [c in df.columns] *)
Definition in_columns (c : label) (df : DataFrame) : bool :=
  existsb (label_eqb c) (columns df).

(** The positions in [cols] that carry the label [c], in ascending
    order, counted from [i]. *)
Fixpoint positions_from (i : nat) (cols : list label) (c : label) : list nat :=
  match cols with
  | [] => []
  | c' :: rest =>
      if label_eqb c c' then i :: positions_from (S i) rest c
      else positions_from (S i) rest c
  end.

Definition positions (cols : list label) (c : label) : list nat :=
  positions_from 0 cols c.

(** Modelled from the spec: [df[keys]] for a list of labels is pandas
    code, outside this repository.  Spec 4.2 b): a new table restricted to exactly
    those columns, in that order, for every row.  For each key, in the
    order of the list, pandas takes every column that carries it, and
    raises [KeyError] when a key labels no column. *)
Definition getitem (df : DataFrame) (keys : list label) : outcome DataFrame :=
  if forallb (fun k => in_columns k df) keys then
    let idx := flat_map (positions (columns df)) keys in
    Returns {| columns := flat_map (fun k => map (fun _ => k) (positions (columns df) k)) keys;
               rows := map (fun r => map (fun i => nth i r None) idx) (rows df) |}
  else Raises (KeyError "not in index").

(** Modelled from the spec: the flattening that [pd.json_normalize(.., sep='.')]
    performs is pandas code, outside this repository.  Spec 4.2: recursively walk a
    mapping; for each leaf (non-mapping) value met at path p1.p2...pn emit
    column p1.p2...pn (dot-joined) with that value; sequences are leaves.
    The emitted pairs are collected in a row, itself a mapping. *)
Fixpoint flatten_walk (path : list string) (v : json) (row : pydict) : pydict :=
  match v with
  | JDict d =>
      (fix walk (items : list (string * json)) (row : pydict) : pydict :=
         match items with
         | [] => row
         | (k, x) :: rest => walk rest (flatten_walk (path ++ [k]) x row)
         end) d row
  | _ => dict_set row (String.concat "." path) v
  end.


(** The walk over the entries of one mapping, as a function of its own. *)
Fixpoint flatten_items (path : list string) (items : pydict) (row : pydict) : pydict :=
  match items with
  | [] => row
  | (k, x) :: rest => flatten_items path rest (flatten_walk (path ++ [k]) x row)
  end.

(** Modelled from the spec: the flattened form of one mapping (4.2),
    walked from the empty path into an empty row. *)
Definition flatten (d : pydict) : pydict := flatten_walk [] (JDict d) [].

(** The leaves of a mapping with the path that leads to each, in
    walking order. *)
Fixpoint leaf_items (path : list string) (v : json) : list (list string * json) :=
  match v with
  | JDict d =>
      (fix walk (items : list (string * json)) : list (list string * json) :=
         match items with
         | [] => []
         | (k, x) :: rest => (leaf_items (path ++ [k]) x ++ walk rest)%list
         end) d
  | _ => [(path, v)]
  end.

(** The leaves below the entries of one mapping. *)
Fixpoint leaf_items_of (path : list string) (items : pydict) : list (list string * json) :=
  match items with
  | [] => []
  | (k, x) :: rest => (leaf_items (path ++ [k]) x ++ leaf_items_of path rest)%list
  end.

Definition dotted (path : list string) : string := String.concat "." path.

(** Modelled from the spec: the frame pandas builds from a list of flat
    rows is pandas code, outside this repository.  Spec 3 and 4.2: the column list
    is the union of all keys seen across rows, in first-seen order; a row
    without a value for a column gets an empty cell. *)
Definition add_keys (cols : list string) (r : pydict) : list string :=
  fold_left
    (fun acc kv => if existsb (String.eqb (fst kv)) acc then acc else (acc ++ [fst kv])%list)
    r cols.

Definition union_keys (recs : list pydict) : list string :=
  fold_left add_keys recs [].

(** Modelled from the spec: the table of a list of flat rows (3, 4.2),
    columns by first appearance, one row of cells per flat row. *)
Definition DataFrame_of_records (recs : list pydict) : DataFrame :=
  let cols := union_keys recs in
  {| columns := map LStr cols;
     rows := map (fun r => map (dict_get r) cols) recs |}.

(** The entries of an element that is a mapping. *)
Definition as_record (v : json) : pydict :=
  match v with JDict d => d | _ => [] end.

Section Normalize.
(** What pandas builds from a non-empty sequence with an element that
    is not a mapping is left open by the spec (4.2 failure policy, 9
    open question): a parameter. *)
Variable normalize_irregular : list json -> outcome DataFrame.

(** Modelled from the spec: [pd.json_normalize(data, sep='.')], pandas
    code outside this repository.  Spec 4.2 a): a sequence has each element
    flattened independently, the columns being the ordered union of
    the flattened keys (none for the empty sequence); a single mapping
    gives a one-row table from its flattened form. *)
Definition json_normalize (data : json) : outcome DataFrame :=
  match data with
  | JList [] => Returns empty_frame
  | JList items =>
      if forallb isinstance_dict items
      then Returns (DataFrame_of_records (map (fun v => flatten (as_record v)) items))
      else normalize_irregular items
  | JDict d => Returns (DataFrame_of_records [flatten d])
  | _ => Raises NotImplementedError
  end.
End Normalize.

End Pandas.

(* ------------------------------------------------------------------ *)
(** ** JSON -> DataFrame helpers and column selection *)

Module Tabular.
Import Json Py Pandas Locator.

Section Conversion.
Variable normalize_irregular : list json -> outcome DataFrame.
(** [pd.DataFrame(x)], the constructor the [except] branches and the
    last line fall back to; pandas code, left as a parameter. *)
Variable pd_DataFrame : json -> outcome DataFrame.

Let normalize := json_normalize normalize_irregular.

(** [json_to_dataframe(obj)] *)
Definition json_to_dataframe (obj : json) : outcome DataFrame :=
  match obj with
  | JNull => Returns empty_frame
  | JList _ => try_except (normalize obj) (pd_DataFrame obj)
  | JDict _ =>
      let lst := find_first_list obj in
      if negb (is_none lst)
      then try_except (normalize lst) (pd_DataFrame lst)
      else try_except (normalize obj) (pd_DataFrame (JList [obj]))
  | _ => pd_DataFrame (JList [obj])
  end.
End Conversion.

Definition PREFERRED_CREATE_COLUMNS : list string :=
  ["id"; "subject"; "description"; "requester.id"; "requester.name";
   "status.name"; "site.name"; "account.name"; "created_time.display_value"].

Definition PREFERRED_VIEW_COLUMNS : list string :=
  ["id"; "subject"; "requester.id"; "requester.name"; "status.name";
   "priority.name"; "technician.name"; "assigned_to.name"; "group.name";
   "site.name"; "account.name"; "created_time";
   "created_time.display_value"; "due_by_time.display_value"].

(** [[c for c in preferred if c in df.columns]] *)
Definition present_columns (df : DataFrame) (preferred : list string) : list string :=
  filter (fun c => in_columns (LStr c) df) preferred.

(** [pick_preferred_columns(df, preferred)]; [df] may be [None].
    [.copy()] yields an equal frame. *)
Definition pick_preferred_columns (df : option DataFrame) (preferred : list string)
  : outcome (option DataFrame) :=
  match df with
  | None => Returns None
  | Some t =>
      if empty t then Returns df
      else
        let present := present_columns t preferred in
        match present with
        | _ :: _ =>
            match getitem t (map LStr present) with
            | Returns r => Returns (Some r)
            | Raises e => Raises e
            end
        | [] => Returns (Some t)
        end
  end.

(** The Streamlit calls the program makes, in the order it makes them. *)
Inductive st_call : Type :=
| st_error (body : string)
| st_json (body : json)
| st_text (body : string)
| st_info (body : string)
| st_subheader (body : string)
| st_dataframe (data : DataFrame)
| st_download_button (label : string) (data : string) (file_name : string) (mime : string).

(** What a piece of UI code did: the calls it made, and whether it
    came to its end or was cut short by an exception. *)
Definition ui : Type := (list st_call * outcome unit)%type.

Definition done (calls : list st_call) : ui := (calls, Returns tt).

Section Rendering.
Variable normalize_irregular : list json -> outcome DataFrame.
Variable pd_DataFrame : json -> outcome DataFrame.
(** [df.to_csv(index=False)] and [json.loads], library code. *)
Variable to_csv : DataFrame -> string.
Variable json_loads : string -> outcome json.

(** [interactive_table(df, default_columns, title)] *)
Definition interactive_table (df : option DataFrame) (default_columns : list string)
           (title : string) : ui :=
  match df with
  | None => done [st_info "No tableable data to display."]
  | Some t =>
      if empty t then done [st_info "No tableable data to display."]
      else
        let preferred_present := present_columns t default_columns in
        let df_to_show :=
          match preferred_present with
          | _ :: _ => getitem t (map LStr preferred_present)
          | [] => Returns t
          end in
        match df_to_show with
        | Raises e => ([st_subheader title], Raises e)
        | Returns shown =>
            done [st_subheader title;
                  st_dataframe shown;
                  st_download_button "Download CSV" (to_csv shown)
                    (lower (replace_space title) ++ ".csv") "text/csv"]
        end
  end.

(** [try: parsed = j if j is not None else json.loads(text)]
    [except Exception: parsed = None] *)
Definition parse_response (text : string) (j : json) : json :=
  match (if negb (is_none j) then Returns j else json_loads text) with
  | Returns v => v
  | Raises _ => JNull
  end.

(** [view_request_flow] from the return of [safe_request_get] on:
    [status], [text], [j] are the three components it returned. *)
Definition view_request_flow (status : option Z) (text : string) (j : json) : ui :=
  match status with
  | None => done [st_error ("Request error: " ++ text)]
  | Some _ =>
      let parsed := parse_response text j in
      if truthy parsed then
        match json_to_dataframe normalize_irregular pd_DataFrame parsed with
        | Raises e => ([], Raises e)
        | Returns df =>
            if empty df then done [st_json parsed]
            else
              match pick_preferred_columns (Some df) PREFERRED_VIEW_COLUMNS with
              | Raises e => ([], Raises e)
              | Returns df_clean =>
                  interactive_table df_clean PREFERRED_VIEW_COLUMNS "Requests Export"
              end
        end
      else done [st_text text]
  end.
End Rendering.

(** A table as the data model of the specification has it (3): the
    column names are unique, and they are derived from the rows, so a
    table without a row has no column. *)
Definition table (t : DataFrame) : Prop :=
  NoDup (columns t) /\ (rows t = [] -> columns t = []).

(** The empty-result property as the specification states it: whenever
    the converted table of a response has zero rows, an [st.info]
    notice is among the calls made. *)
Definition empty_result_as_stated
           (normalize_irregular : list json -> outcome DataFrame)
           (pd_DataFrame : json -> outcome DataFrame)
           (to_csv : DataFrame -> string)
           (json_loads : string -> outcome json) : Prop :=
  forall status text j df,
    json_to_dataframe normalize_irregular pd_DataFrame
                      (parse_response json_loads text j) = Returns df ->
    rows df = [] ->
    exists notice,
      In (st_info notice)
         (fst (view_request_flow normalize_irregular pd_DataFrame to_csv json_loads
                                 (Some status) text j)).

End Tabular.

(* ------------------------------------------------------------------ *)
(** ** The request wrappers *)

Module Http.
Import Json Py.

(** What the handlers read off a [requests.Response]: [r.status_code],
    [r.text], [r.headers.get('Content-Type','')] and what [r.json()]
    does when called. *)
Record Response : Type := {
  status_code : Z;
  text : string;
  content_type : string;
  json_ : outcome json
}.

(** The triple both wrappers return: status or [None], text, parsed
    JSON or [None]. *)
Definition triple : Type := (option Z * string * json)%type.

(** [safe_request_post]; [post] is what the call [requests.post(...)]
    did.  The two [except] clauses are tried in order; [r] is [Some]
    exactly when ['r' in locals()].  The [ValueError] clause has no
    [as e], so its [str(e)] finds the local [e] unbound. *)
Definition safe_request_post (post : outcome Response) : outcome triple :=
  let handlers (r : option Response) (e : exn) : outcome triple :=
    if isinstance_RequestException e then Returns (None, str e, JNull)
    else if isinstance_ValueError e then
      match r with
      | Some r => Returns (Some (status_code r), text r, JNull)
      | None => Raises (UnboundLocalError "e")
      end
    else Raises e in
  match post with
  | Raises e => handlers None e
  | Returns r =>
      if str_contains "application/json" (content_type r) then
        match json_ r with
        | Returns v => Returns (Some (status_code r), text r, v)
        | Raises e => handlers (Some r) e
        end
      else Returns (Some (status_code r), text r, JNull)
  end.

(** [safe_request_get]; [get] is what the call [requests.get(...)] did. *)
Definition safe_request_get (get : outcome Response) : outcome triple :=
  let handlers (r : option Response) (e : exn) : outcome triple :=
    if isinstance_RequestException e then Returns (None, str e, JNull)
    else if isinstance_ValueError e then
      match r with
      | Some r => Returns (Some (status_code r), text r, JNull)
      | None => Raises (UnboundLocalError "e")
      end
    else Raises e in
  match get with
  | Raises e => handlers None e
  | Returns r =>
      if str_contains "application/json" (content_type r) then
        match json_ r with
        | Returns v => Returns (Some (status_code r), text r, v)
        | Raises e => handlers (Some r) e
        end
      else Returns (Some (status_code r), text r, JNull)
  end.

End Http.

(* ------------------------------------------------------------------ *)
(** ** Sample inputs *)

Module Samples.
Import Json Py Pandas Tabular Http.

(** Two priority keys holding lists, in both insertion orders. *)
Definition data_then_requests : pydict :=
  [("data", JList [JNum 1]); ("requests", JList [JNum 2])].
Definition requests_then_data : pydict :=
  [("requests", JList [JNum 2]); ("data", JList [JNum 1])].

(** Scenario B of the specification: no list anywhere. *)
Definition status_and_data : pydict :=
  [("status", JStr "ok"); ("data", JDict [("id", JStr "5")])].

(** A mapping whose located list is empty. *)
Definition no_requests : pydict := [("requests", JList [])].

(** A table with one row. *)
Definition one_ticket : DataFrame :=
  {| columns := [LStr "id"; LStr "subject"];
     rows := [[Some (JStr "1"); Some (JStr "X")]] |}.

(** Stand-ins for the library parameters. *)
Definition no_frame : outcome DataFrame := Raises NotImplementedError.
Definition unparsed : outcome json := Raises NotImplementedError.

(** A received response declared as JSON whose body does not decode,
    as requests 2.27 and later report it: [Response.json] raises
    [requests.exceptions.JSONDecodeError], a subclass of both
    [RequestException] (through [InvalidJSONError]) and [ValueError]. *)
Definition undecodable : exn :=
  {| isinstance_RequestException := true;
     isinstance_ValueError := true;
     str := "Expecting property name enclosed in double quotes: line 1 column 2 (char 1)" |}.
Definition not_json_response : Response :=
  {| status_code := 500;
     text := "{not json";
     content_type := "application/json";
     json_ := Raises undecodable |}.

(** A connection failure carrying the same message. *)
Definition connection_failed : exn :=
  {| isinstance_RequestException := true;
     isinstance_ValueError := false;
     str := "Expecting property name enclosed in double quotes: line 1 column 2 (char 1)" |}.

(** What [requests.get] raises when a header value cannot be encoded
    as Latin-1 (an [authtoken] holding U+2026, say): a
    [UnicodeEncodeError], which is a [ValueError] and not a
    [RequestException], raised before [r] is assigned. *)
Definition header_not_latin1 : exn :=
  {| isinstance_RequestException := false;
     isinstance_ValueError := true;
     str := "'latin-1' codec can't encode character '\u2026' in position 3: ordinal not in range(256)" |}.

End Samples.

(* ------------------------------------------------------------------ *)
(** ** The create flow and the two flows behind their wrappers *)

Module Create.
Import Json Py Pandas Locator Tabular.

(** [str(n)] for an [int]. *)
Definition str_of_int (n : Z) : string := NilZero.string_of_int (Z.to_int n).

(** The calls of [create_request_flow]: those of the view, and
    [st.write]. *)
Inductive call : Type :=
| st_write (body : string)
| st (c : st_call).

Definition ui : Type := (list call * outcome unit)%type.

(** The keys the [for] loop of [create_request_flow] tries, in order. *)
Definition other_keys : list string :=
  ["requests"; "data"; "result"; "results"; "records"; "response"].

Section Flow.
Variable normalize_irregular : list json -> outcome DataFrame.
Variable pd_DataFrame : json -> outcome DataFrame.
Variable to_csv : DataFrame -> string.
Variable json_loads : string -> outcome json.

(** [for key in (...): if key in parsed: val = parsed[key]; ...]: the
    first key whose value is a list or a mapping has that value
    normalized and ends the loop; [df] is the frame held on entry.  The
    two [pd.json_normalize] calls here are not inside a [try]. *)
Fixpoint key_loop (parsed : pydict) (keys : list string) (df : DataFrame)
  : outcome DataFrame :=
  match keys with
  | [] => Returns df
  | key :: rest =>
      match dict_get parsed key with
      | Some val =>
          if isinstance_list val then json_normalize normalize_irregular val
          else if isinstance_dict val then json_normalize normalize_irregular val
          else key_loop parsed rest df
      | None => key_loop parsed rest df
      end
  end.

(** Lines 287-313 of [create_request_flow]: the frame built from the
    parsed response, starting from [df = pd.DataFrame()]. *)
Definition response_frame (parsed : json) : outcome DataFrame :=
  match parsed with
  | JDict d =>
      match dict_get d "request" with
      | Some (JDict req) => json_normalize normalize_irregular (JDict req)
      | _ =>
          match key_loop d other_keys empty_frame with
          | Raises e => Raises e
          | Returns df =>
              if empty df
              then try_except (json_normalize normalize_irregular parsed)
                              (pd_DataFrame (JList [parsed]))
              else Returns df
          end
      end
  | JList _ =>
      try_except (json_normalize normalize_irregular parsed) (pd_DataFrame parsed)
  | _ => Returns empty_frame
  end.

(** [create_request_flow] from the return of [safe_request_post] on:
    [status], [text], [j] are the three components it returned. *)
Definition create_request_flow (status : option Z) (text : string) (j : json) : ui :=
  match status with
  | None => ([st (st_error ("Request error: " ++ text))], Returns tt)
  | Some code =>
      let http := st_write ("HTTP " ++ str_of_int code) in
      let parsed := parse_response json_loads text j in
      if negb (truthy parsed) then ([http; st (st_text text)], Returns tt)
      else
        match response_frame parsed with
        | Raises e => ([http], Raises e)
        | Returns df =>
            match pick_preferred_columns (Some df) PREFERRED_CREATE_COLUMNS with
            | Raises e => ([http], Raises e)
            | Returns df_clean =>
                if match df_clean with
                   | None => true
                   | Some t => empty t
                   end
                then ([http; st (st_json parsed)], Returns tt)
                else
                  let shown :=
                    interactive_table to_csv df_clean PREFERRED_CREATE_COLUMNS
                                      "Create Response" in
                  (http :: map st (fst shown), snd shown)
            end
        end
  end.
End Flow.

End Create.

Module Flows.
Import Json Py Pandas Tabular Http Create.

(** The call, or the [r.json()] of a response declared as JSON, raised
    the exception [e]. *)
Definition raised (x : outcome Response) (e : exn) : Prop :=
  x = Raises e \/
  exists r, x = Returns r /\
            str_contains "application/json" (content_type r) = true /\
            json_ r = Raises e.

Section Flows.
Variable normalize_irregular : list json -> outcome DataFrame.
Variable pd_DataFrame : json -> outcome DataFrame.
Variable to_csv : DataFrame -> string.
Variable json_loads : string -> outcome json.

(** [status, text, j = safe_request_get(...)] and what
    [view_request_flow] does from there (lines 392-414). *)
Definition view_after_get (get : outcome Response) : Tabular.ui :=
  match safe_request_get get with
  | Raises e => ([], Raises e)
  | Returns (status, text, j) =>
      view_request_flow normalize_irregular pd_DataFrame to_csv json_loads
                        status text j
  end.

(** [status, text, j = safe_request_post(...)] and what
    [create_request_flow] does from there (lines 270-324). *)
Definition create_after_post (post : outcome Response) : Create.ui :=
  match safe_request_post post with
  | Raises e => ([], Raises e)
  | Returns (status, text, j) =>
      create_request_flow normalize_irregular pd_DataFrame to_csv json_loads
                          status text j
  end.
End Flows.

End Flows.

Module Shape.
Import Json Py Pandas.

(** Every row of a frame has one cell per column. *)
Definition rows_fit (df : DataFrame) : Prop :=
  Forall (fun r => List.length r = List.length (columns df)) (rows df).

(** The frame [df[present]] of [pick_preferred_columns]. *)
Definition selected (t : DataFrame) (present : list string) : DataFrame :=
  {| columns := flat_map (fun k => map (fun _ : nat => k) (positions (columns t) k))
                         (map LStr present);
     rows := map (fun r => map (fun i => nth i r None)
                               (flat_map (positions (columns t)) (map LStr present)))
                 (rows t) |}.

(** The characters of a string. *)
Fixpoint chars (s : string) : list ascii :=
  match s with
  | EmptyString => []
  | String c s' => c :: chars s'
  end.

(** Text made of ASCII characters only. *)
Definition ascii_text (s : string) : Prop :=
  Forall (fun c => nat_of_ascii c < 128) (chars s).

(** An upper-case ASCII letter. *)
Definition is_upper (c : ascii) : bool :=
  andb (Nat.leb 65 (nat_of_ascii c)) (Nat.leb (nat_of_ascii c) 90).

End Shape.

Module MoreSamples.
Import Json Py Pandas Tabular Http Samples.

(** A view response with two tickets. *)
Definition tickets : list json :=
  [JDict [("id", JStr "1"); ("subject", JStr "X");
          ("requester", JDict [("name", JStr "Bob")])];
   JDict [("id", JStr "2"); ("subject", JStr "Y")]].
Definition two_tickets_entries : pydict :=
  [("response_status", JList [JDict [("status_code", JNum 2000)]]);
   ("list_info", JDict [("row_count", JNum 2)]);
   ("requests", JList tickets)].
Definition two_tickets : json := JDict two_tickets_entries.

(** A create response. *)
Definition created : pydict :=
  [("request", JDict [("id", JStr "7"); ("subject", JStr "TEST");
                      ("status", JDict [("name", JStr "Open")])]);
   ("response_status", JDict [("status", JStr "success")])].

(** A response declared as JSON with a character set, body decoded. *)
Definition json_with_charset : Response :=
  {| status_code := 200;
     text := "(body)";
     content_type := "application/json; charset=utf-8";
     json_ := Returns two_tickets |}.

(** A response declared as HTML, whose [r.json()] would fail. *)
Definition html_page : Response :=
  {| status_code := 502;
     text := "Bad Gateway";
     content_type := "text/html";
     json_ := Raises undecodable |}.

(** The same body and status as [json_with_charset], declared as
    plain text. *)
Definition json_as_plain_text : Response :=
  {| status_code := 200;
     text := "(body)";
     content_type := "text/plain";
     json_ := Raises undecodable |}.

(** The row the create flow shows for [created]. *)
Definition created_row : DataFrame :=
  {| columns := [LStr "id"; LStr "subject"; LStr "status.name"];
     rows := [[Some (JStr "7"); Some (JStr "TEST"); Some (JStr "Open")]] |}.

Definition csv_stub (df : DataFrame) : string := "csv".

End MoreSamples.

(* ================================================================== *)
(** * Properties *)

(* ------------------------------------------------------------------ *)
(** ** Mappings as association lists *)

Module DictFacts.
Import Json.

Section Lookup.
Context {A : Type}.
Implicit Types (d : list (string * A)) (k : string) (v : A).

Lemma dict_get_In d k v : dict_get d k = Some v -> In (k, v) d.
Proof.
  induction d as [|[k' v'] r IH]; simpl; [discriminate|].
  destruct (String.eqb_spec k' k) as [->|Hne].
  - intros [= ->]. now left.
  - intros H. right. now apply IH.
Qed.

Lemma In_dict_get d k v :
  NoDup (map fst d) -> In (k, v) d -> dict_get d k = Some v.
Proof.
  induction d as [|[k' v'] r IH]; simpl; [contradiction|].
  intros Hnd [Heq|Hin].
  - injection Heq as -> ->. now rewrite String.eqb_refl.
  - inversion Hnd as [|? ? Hnotin Hnd']; subst.
    destruct (String.eqb_spec k' k) as [->|Hne].
    + exfalso. apply Hnotin. now apply (in_map fst) in Hin.
    + now apply IH.
Qed.

Lemma dict_get_None d k : dict_get d k = None -> ~ In k (map fst d).
Proof.
  induction d as [|[k' v'] r IH]; simpl; [tauto|].
  destruct (String.eqb_spec k' k) as [->|Hne]; [discriminate|].
  intros H [Heq|Hin]; [contradiction|]. now apply IH.
Qed.

(** Lookup does not depend on the insertion order of a mapping. *)
Lemma dict_get_Permutation d d' k :
  NoDup (map fst d) -> Permutation d d' -> dict_get d k = dict_get d' k.
Proof.
  intros Hnd Hp.
  assert (Hnd' : NoDup (map fst d')).
  { eapply Permutation_NoDup; [apply Permutation_map, Hp | exact Hnd]. }
  destruct (dict_get d k) as [v|] eqn:E.
  - symmetry. apply In_dict_get; [exact Hnd'|].
    eapply Permutation_in; [exact Hp|]. now apply dict_get_In.
  - destruct (dict_get d' k) as [v'|] eqn:E'; [|reflexivity].
    apply dict_get_In in E'.
    apply Permutation_sym in Hp.
    apply (Permutation_in _ Hp) in E'.
    apply (In_dict_get _ _ _ Hnd) in E'. congruence.
Qed.

Lemma In_dict_set d k v c x :
  In (c, x) (dict_set d k v) -> (c = k /\ x = v) \/ In (c, x) d.
Proof.
  induction d as [|[k' v'] r IH]; simpl.
  - intros [[= <- <-]|[]]. now left.
  - destruct (String.eqb_spec k' k) as [->|Hne]; simpl.
    + intros [[= <- <-]|Hin]; [now left | right; now right].
    + intros [Heq|Hin]; [right; now left|].
      destruct (IH Hin) as [Hl|Hr]; [now left | right; now right].
Qed.

Lemma keys_dict_set d k v c :
  In c (map fst (dict_set d k v)) <-> c = k \/ In c (map fst d).
Proof.
  induction d as [|[k' v'] r IH]; simpl.
  - intuition congruence.
  - destruct (String.eqb_spec k' k) as [->|Hne]; simpl.
    + intuition congruence.
    + rewrite IH. intuition congruence.
Qed.

Lemma NoDup_dict_set d k v :
  NoDup (map fst d) -> NoDup (map fst (dict_set d k v)).
Proof.
  induction d as [|[k' v'] r IH]; simpl; intros Hnd.
  - constructor; [simpl; tauto | constructor].
  - inversion Hnd as [|? ? Hnotin Hnd']; subst.
    destruct (String.eqb_spec k' k) as [->|Hne]; simpl.
    + now constructor.
    + constructor; [|now apply IH].
      rewrite keys_dict_set. intros [->|Hin]; [now apply Hne | now apply Hnotin].
Qed.
End Lookup.

End DictFacts.

(* ------------------------------------------------------------------ *)
(** ** The record locator *)

Module LocatorFacts.
Import Json Locator DictFacts.

Lemma contains_list_dict d :
  contains_list (JDict d) = any_value_contains_list d.
Proof.
  unfold any_value_contains_list. cbn [contains_list].
  induction d as [|[k x] r IH]; cbn [existsb snd]; [reflexivity|].
  now rewrite IH.
Qed.

(** The [dict] branch, one loop after the other. *)
Lemma find_first_list_dict d :
  find_first_list (JDict d) =
  match preferred_loop d preferred_keys with
  | Some found => found
  | None => values_loop d
  end.
Proof.
  cbn [find_first_list].
  destruct (preferred_loop d preferred_keys); [reflexivity|].
  induction d as [|[k v] r IH]; cbn [values_loop]; [reflexivity|].
  now rewrite IH.
Qed.

Lemma isinstance_list_inv v : isinstance_list v = true -> exists l, v = JList l.
Proof. destruct v; simpl; try discriminate. intros _. now eexists. Qed.

(** The first loop returns what is stored under the first key, in the
    order of [ks], that holds a list. *)
Lemma preferred_loop_find obj ks :
  preferred_loop obj ks =
  match find (holds_list obj) ks with
  | Some k => dict_get obj k
  | None => None
  end.
Proof.
  induction ks as [|k ks IH]; simpl; [reflexivity|].
  unfold holds_list at 1.
  destruct (dict_get obj k) as [v|] eqn:E; [|exact IH].
  destruct (isinstance_list v); [now rewrite E | exact IH].
Qed.

Lemma preferred_loop_Some obj ks found :
  preferred_loop obj ks = Some found ->
  exists k l, In k ks /\ dict_get obj k = Some (JList l) /\ found = JList l.
Proof.
  induction ks as [|k ks IH]; simpl; [discriminate|].
  destruct (dict_get obj k) as [v|] eqn:E.
  - destruct (isinstance_list v) eqn:Ev.
    + intros [= <-]. destruct (isinstance_list_inv _ Ev) as [l ->].
      exists k, l. auto.
    + intros H. destruct (IH H) as (k' & l & Hin & Hget & Hf).
      exists k', l. auto.
  - intros H. destruct (IH H) as (k' & l & Hin & Hget & Hf).
    exists k', l. auto.
Qed.

Lemma holds_list_Permutation d d' k :
  NoDup (map fst d) -> Permutation d d' -> holds_list d k = holds_list d' k.
Proof.
  intros Hnd Hp. unfold holds_list. now rewrite (dict_get_Permutation d d' k Hnd Hp).
Qed.

Lemma preferred_loop_Permutation d d' ks :
  NoDup (map fst d) -> Permutation d d' ->
  preferred_loop d ks = preferred_loop d' ks.
Proof.
  intros Hnd Hp. induction ks as [|k ks IH]; simpl; [reflexivity|].
  rewrite <- (dict_get_Permutation d d' k Hnd Hp). now rewrite IH.
Qed.

(** A mapping without any list below it defeats both loops. *)
Lemma preferred_loop_no_list d ks :
  any_value_contains_list d = false -> preferred_loop d ks = None.
Proof.
  intros Hno. induction ks as [|k ks IH]; simpl; [reflexivity|].
  destruct (dict_get d k) as [v|] eqn:E; [|exact IH].
  destruct (isinstance_list v) eqn:Ev; [|exact IH].
  exfalso. apply dict_get_In in E.
  destruct (isinstance_list_inv _ Ev) as [l ->].
  unfold any_value_contains_list in Hno.
  assert (Ht : existsb (fun kv => contains_list (snd kv)) d = true).
  { apply existsb_exists. exists (k, JList l). split; [exact E | reflexivity]. }
  congruence.
Qed.

Lemma find_first_list_no_list v :
  contains_list v = false -> find_first_list v = JNull.
Proof.
  induction v as [ | b | n | s | items _ | d IH] using json_rect2;
    try reflexivity; try discriminate.
  rewrite contains_list_dict, find_first_list_dict. intros Hno.
  rewrite (preferred_loop_no_list d preferred_keys Hno).
  unfold any_value_contains_list in Hno.
  induction d as [|[k x] r IHr]; [reflexivity|].
  cbn [existsb snd] in Hno. apply orb_false_iff in Hno as [Hx Hr].
  inversion IH as [|? ? Hhd Htl]; subst. cbn [snd] in Hhd.
  cbn [values_loop]. rewrite (Hhd Hx). cbn [is_none]. now apply IHr.
Qed.

(** The second loop returns the first non-[None] answer among the
    values. *)
Lemma values_loop_first before k v after :
  Forall (fun kv => find_first_list (snd kv) = JNull) before ->
  find_first_list v <> JNull ->
  values_loop (before ++ (k, v) :: after)%list = find_first_list v.
Proof.
  intros Hb Hv. induction Hb as [|[k' x] r Hx _ IH]; cbn [values_loop app].
  - destruct (find_first_list v); try reflexivity. congruence.
  - cbn [snd] in Hx. rewrite Hx. cbn [is_none]. exact IH.
Qed.

(** The code finds what the specification's wording locates. *)
Lemma find_first_list_locates obj l :
  locates obj l -> find_first_list obj = JList l.
Proof.
  induction 1 as [l | d before k after l Hkeys Hbefore Hget
                  | d before k v after l Hnone -> Hbefore _ IH].
  - reflexivity.
  - rewrite find_first_list_dict, preferred_loop_find, Hkeys.
    assert (Hfind : find (holds_list d) (before ++ k :: after)%list = Some k).
    { clear Hkeys. induction before as [|b bs IHb]; simpl.
      - unfold holds_list. now rewrite Hget.
      - rewrite (Hbefore b) by now left.
        apply IHb. intros k' Hk'. apply Hbefore. now right. }
    now rewrite Hfind, Hget.
  - rewrite find_first_list_dict, preferred_loop_find.
    assert (Hfind : find (holds_list (before ++ (k, v) :: after)%list) preferred_keys = None).
    { destruct (find _ preferred_keys) as [k0|] eqn:E; [|reflexivity].
      apply find_some in E as [Hin Hh]. rewrite (Hnone _ Hin) in Hh. discriminate. }
    rewrite Hfind. rewrite values_loop_first; [exact IH | | rewrite IH; discriminate].
    eapply Forall_impl; [|exact Hbefore].
    intros kv Hkv. now apply find_first_list_no_list.
Qed.

End LocatorFacts.

(* ------------------------------------------------------------------ *)
(** ** Flattening and frames built from rows *)

Module PandasFacts.
Import Json Py Pandas DictFacts.

Lemma flatten_walk_dict path d row :
  flatten_walk path (JDict d) row = flatten_items path d row.
Proof.
  cbn [flatten_walk]. revert row.
  induction d as [|[k x] r IH]; intros row; cbn [flatten_items]; [reflexivity|].
  now rewrite IH.
Qed.

Lemma leaf_items_dict path d :
  leaf_items path (JDict d) = leaf_items_of path d.
Proof.
  cbn [leaf_items].
  induction d as [|[k x] r IH]; cbn [leaf_items_of]; [reflexivity|].
  now rewrite IH.
Qed.

(** Flattening only adds keys, and keeps the keys unique. *)
Lemma flatten_walk_NoDup v : forall path row,
  NoDup (map fst row) -> NoDup (map fst (flatten_walk path v row)).
Proof.
  induction v as [ | b | n | s | items _ | d IH] using json_rect2;
    intros path row Hnd; try (now apply NoDup_dict_set).
  rewrite flatten_walk_dict. revert row Hnd.
  induction IH as [|[k x] r Hx _ IHr]; intros row Hnd; cbn [flatten_items];
    [exact Hnd|].
  apply IHr. now apply Hx.
Qed.

Lemma flatten_walk_keeps_keys v : forall path row c,
  In c (map fst row) -> In c (map fst (flatten_walk path v row)).
Proof.
  induction v as [ | b | n | s | items _ | d IH] using json_rect2;
    intros path row c Hin;
    try (apply keys_dict_set; now right).
  rewrite flatten_walk_dict. revert row Hin.
  induction IH as [|[k x] r Hx _ IHr]; intros row Hin; cbn [flatten_items];
    [exact Hin|].
  apply IHr. now apply Hx.
Qed.

(** Every entry of the flattened row is a leaf under its dotted path. *)
Lemma flatten_walk_sound v : forall path row c x,
  In (c, x) (flatten_walk path v row) ->
  In (c, x) row \/ exists p, In (p, x) (leaf_items path v) /\ c = dotted p.
Proof.
  induction v as [ | b | n | s | items _ | d IH] using json_rect2;
    intros path row c x Hin;
    try (cbn [flatten_walk] in Hin; apply In_dict_set in Hin as [[-> ->]|Hin];
         [right; exists path; split; [now left | reflexivity] | now left]).
  rewrite flatten_walk_dict in Hin. rewrite leaf_items_dict.
  revert row Hin.
  induction IH as [|[k y] r Hy _ IHr]; intros row Hin; cbn [flatten_items] in Hin;
    [now left|].
  cbn [leaf_items_of].
  destruct (IHr _ Hin) as [Hrow|(p & Hp & ->)].
  - destruct (Hy _ _ _ _ Hrow) as [Hold|(p & Hp & ->)]; [now left|].
    right. exists p. split; [apply in_or_app; now left | reflexivity].
  - right. exists p. split; [apply in_or_app; now right | reflexivity].
Qed.

(** Every leaf has its dotted path among the keys of the flattened row. *)
Lemma flatten_walk_complete v : forall path row p x,
  In (p, x) (leaf_items path v) ->
  In (dotted p) (map fst (flatten_walk path v row)).
Proof.
  induction v as [ | b | n | s | items _ | d IH] using json_rect2;
    intros path row p x Hin;
    try (cbn [leaf_items] in Hin; destruct Hin as [[= <- <-]|[]];
         cbn [flatten_walk]; apply keys_dict_set; now left).
  rewrite leaf_items_dict in Hin. rewrite flatten_walk_dict.
  revert row Hin.
  induction IH as [|[k y] r Hy _ IHr]; intros row Hin; cbn [leaf_items_of] in Hin;
    [contradiction|].
  cbn [flatten_items]. apply in_app_or in Hin as [Hhd|Htl].
  - rewrite <- flatten_walk_dict. apply flatten_walk_keeps_keys.
    now apply Hy with (x := x).
  - now apply IHr.
Qed.

Lemma flatten_NoDup d : NoDup (map fst (flatten d)).
Proof. apply flatten_walk_NoDup. constructor. Qed.

(** The column union of a single row with unique keys is its key list. *)
Lemma add_keys_fresh r : forall cols,
  NoDup (cols ++ map fst r) -> add_keys cols r = (cols ++ map fst r)%list.
Proof.
  unfold add_keys.
  induction r as [|[k x] r IH]; intros cols Hnd; cbn [fold_left map fst].
  - now rewrite app_nil_r.
  - assert (Hfresh : existsb (String.eqb k) cols = false).
    { destruct (existsb (String.eqb k) cols) eqn:E; [|reflexivity].
      apply existsb_exists in E as (k' & Hin & Heq).
      apply String.eqb_eq in Heq. subst k'.
      apply NoDup_remove_2 in Hnd. exfalso. apply Hnd.
      apply in_or_app. now left. }
    rewrite Hfresh. rewrite IH.
    + now rewrite <- app_assoc.
    + rewrite <- app_assoc. exact Hnd.
Qed.

Lemma map_dict_get_keys (r : pydict) :
  NoDup (map fst r) -> map (dict_get r) (map fst r) = map Some (map snd r).
Proof.
  intros Hnd. rewrite !map_map. apply map_ext_in.
  intros [k x] Hin. cbn [fst snd]. now apply In_dict_get.
Qed.

Lemma DataFrame_of_one_record r :
  NoDup (map fst r) ->
  DataFrame_of_records [r] =
  {| columns := map LStr (map fst r); rows := [map Some (map snd r)] |}.
Proof.
  intros Hnd. unfold DataFrame_of_records, union_keys. cbn [fold_left map].
  rewrite (add_keys_fresh r []); [|exact Hnd]. cbn [app].
  now rewrite map_dict_get_keys.
Qed.

End PandasFacts.

(* ------------------------------------------------------------------ *)
(** ** Column selection *)

Module ProjectorFacts.
Import Json Py Pandas Tabular.

Lemma label_eqb_eq a b : label_eqb a b = true <-> a = b.
Proof.
  destruct a as [s|i], b as [t|j]; simpl; split; try discriminate.
  - intros H. apply String.eqb_eq in H. now subst.
  - intros [= ->]. apply String.eqb_refl.
  - intros H. apply Z.eqb_eq in H. now subst.
  - intros [= ->]. apply Z.eqb_refl.
Qed.

Lemma in_columns_In c df : in_columns c df = true <-> In c (columns df).
Proof.
  unfold in_columns. rewrite existsb_exists. split.
  - intros (c' & Hin & Heq). apply label_eqb_eq in Heq. now subst.
  - intros Hin. exists c. split; [exact Hin | now apply label_eqb_eq].
Qed.

Lemma present_columns_In df preferred c :
  In c (present_columns df preferred) <-> In c preferred /\ In (LStr c) (columns df).
Proof. unfold present_columns. now rewrite filter_In, in_columns_In. Qed.

(** Every position reported for a label carries that label. *)
Lemma positions_from_labelled cols : forall n c i,
  In i (positions_from n cols c) ->
  n <= i /\ nth_error cols (i - n) = Some c.
Proof.
  induction cols as [|c' rest IH]; intros n c i Hin; simpl in Hin; [contradiction|].
  assert (Hrest : In i (positions_from (S n) rest c) ->
                  n <= i /\ nth_error (c' :: rest) (i - n) = Some c).
  { intros H. destruct (IH _ _ _ H) as [Hle Hnth]. split; [lia|].
    replace (i - n) with (S (i - S n)) by lia. exact Hnth. }
  destruct (label_eqb c c') eqn:E; [|now apply Hrest].
  destruct Hin as [<-|Hin]; [|now apply Hrest].
  apply label_eqb_eq in E. subst c'. split; [lia|].
  now replace (n - n) with 0 by lia.
Qed.

Lemma positions_labelled cols c i :
  In i (positions cols c) -> nth_error cols i = Some c.
Proof.
  intros Hin. apply positions_from_labelled in Hin as [_ H].
  now rewrite Nat.sub_0_r in H.
Qed.

Lemma positions_from_absent cols : forall n c,
  ~ In c cols -> positions_from n cols c = [].
Proof.
  induction cols as [|c' rest IH]; intros n c Hnot; simpl; [reflexivity|].
  destruct (label_eqb c c') eqn:E.
  - apply label_eqb_eq in E. subst. exfalso. apply Hnot. now left.
  - apply IH. intros H. apply Hnot. now right.
Qed.

(** With unique labels, a label that occurs has exactly one position. *)
Lemma positions_from_unique cols : forall n c,
  NoDup cols -> In c cols -> exists i, positions_from n cols c = [i].
Proof.
  induction cols as [|c' rest IH]; intros n c Hnd Hin; [contradiction|].
  inversion Hnd as [|? ? Hnotin Hnd']; subst. simpl.
  destruct (label_eqb c c') eqn:E.
  - apply label_eqb_eq in E. subst c'.
    rewrite (positions_from_absent rest (S n) c Hnotin). now exists n.
  - destruct Hin as [->|Hin].
    + assert (Ht : label_eqb c c = true) by now apply label_eqb_eq. congruence.
    + now apply IH.
Qed.

(** The column list of [df[keys]]: the keys themselves when the
    labels of [df] are unique. *)
Lemma selected_columns_unique cols keys :
  NoDup cols -> Forall (fun k => In k cols) keys ->
  flat_map (fun k => map (fun _ : nat => k) (positions cols k)) keys = keys.
Proof.
  intros Hnd Hall. induction Hall as [|k ks Hk _ IH]; simpl; [reflexivity|].
  destruct (positions_from_unique cols 0 k Hnd Hk) as [i Hi].
  unfold positions at 1. rewrite Hi. simpl. now rewrite IH.
Qed.

Lemma selected_columns_In cols keys c :
  In c (flat_map (fun k => map (fun _ : nat => k) (positions cols k)) keys) ->
  In c keys /\ In c cols.
Proof.
  rewrite in_flat_map. intros (k & Hk & Hin).
  apply in_map_iff in Hin as (i & <- & Hi). split; [exact Hk|].
  apply positions_labelled in Hi. now apply nth_error_In in Hi.
Qed.

(** Column [j] of [df[keys]] is a copy of some column [k] of [df] with
    the same label. *)
Lemma selected_column_source cols keys : forall j c,
  nth_error (flat_map (fun k => map (fun _ : nat => k) (positions cols k)) keys) j = Some c ->
  exists k, nth_error (flat_map (positions cols) keys) j = Some k /\
            nth_error cols k = Some c.
Proof.
  induction keys as [|key ks IH]; intros j c Hj; simpl in Hj.
  - destruct j; discriminate.
  - simpl. destruct (Nat.lt_ge_cases j (List.length (positions cols key))) as [Hlt|Hge].
    + rewrite nth_error_app1 in Hj by now rewrite length_map.
      rewrite nth_error_app1 by exact Hlt.
      rewrite nth_error_map in Hj.
      destruct (nth_error (positions cols key) j) as [k|] eqn:E; [|discriminate].
      injection Hj as <-. exists k. split; [reflexivity|].
      apply positions_labelled. now apply nth_error_In in E.
    + rewrite nth_error_app2 in Hj by now rewrite length_map.
      rewrite length_map in Hj.
      rewrite nth_error_app2 by exact Hge. now apply IH.
Qed.

Lemma present_columns_getitem t preferred :
  forallb (fun k => in_columns k t) (map LStr (present_columns t preferred)) = true.
Proof.
  apply forallb_forall. intros k Hin.
  apply in_map_iff in Hin as (c & <- & Hc).
  apply present_columns_In in Hc as [_ Hc]. now apply in_columns_In.
Qed.

(** The four ways [pick_preferred_columns] comes back. *)
Lemma pick_preferred_columns_empty t preferred :
  empty t = true -> pick_preferred_columns (Some t) preferred = Returns (Some t).
Proof. intros H. unfold pick_preferred_columns. now rewrite H. Qed.

Lemma pick_preferred_columns_none_present t preferred :
  present_columns t preferred = [] ->
  pick_preferred_columns (Some t) preferred = Returns (Some t).
Proof.
  intros H. unfold pick_preferred_columns. rewrite H. now destruct (empty t).
Qed.

Lemma pick_preferred_columns_some_present t preferred :
  empty t = false -> present_columns t preferred <> [] ->
  pick_preferred_columns (Some t) preferred =
  Returns (Some
    {| columns := flat_map (fun k => map (fun _ : nat => k) (positions (columns t) k))
                           (map LStr (present_columns t preferred));
       rows := map (fun r => map (fun i => nth i r None)
                                 (flat_map (positions (columns t))
                                           (map LStr (present_columns t preferred))))
                   (rows t) |}).
Proof.
  intros He Hp. unfold pick_preferred_columns. rewrite He.
  destruct (present_columns t preferred) as [|c cs] eqn:E; [congruence|].
  rewrite <- E. unfold getitem. now rewrite present_columns_getitem.
Qed.

End ProjectorFacts.

(* ------------------------------------------------------------------ *)
(** ** The specification's statements about the locator *)

Module LocatorSpec.
Import Json Py Pandas Locator Tabular DictFacts LocatorFacts PandasFacts Samples.

(** C4: for every JSON value that is itself a list, [find_first_list]
    returns that list unchanged. *)
Theorem find_first_list_of_list (items : list json) :
  find_first_list (JList items) = JList items.
Proof. reflexivity. Qed.

(** C9: for every JSON-like input, [find_first_list] returns either
    null or a list, never a scalar, string or mapping; and a returned
    list is a value that occurs within the input. *)
Theorem find_first_list_null_or_inner_list (obj : json) :
  find_first_list obj = JNull \/
  exists l, find_first_list obj = JList l /\ occurs_in (JList l) obj.
Proof.
  induction obj as [ | b | n | s | items _ | d IH] using json_rect2;
    try (left; reflexivity).
  - right. exists items. split; [reflexivity | constructor].
  - rewrite find_first_list_dict.
    destruct (preferred_loop d preferred_keys) as [found|] eqn:E.
    + right. apply preferred_loop_Some in E as (k & l & _ & Hget & ->).
      exists l. split; [reflexivity|].
      apply occurs_value with (k := k) (v := JList l);
        [now apply dict_get_In | constructor].
    + clear E.
      assert (H : values_loop d = JNull \/
                  exists l, values_loop d = JList l /\
                            exists k v, In (k, v) d /\ occurs_in (JList l) v).
      { induction d as [|[k x] r IHr]; [now left|].
        inversion IH as [|? ? Hhd Htl]; subst. cbn [snd] in Hhd.
        cbn [values_loop].
        destruct Hhd as [Hnull|(l & Hl & Hocc)].
        - rewrite Hnull. cbn [is_none].
          destruct (IHr Htl) as [Hn|(l & Hl & k' & v' & Hin & Hocc)];
            [now left|].
          right. exists l. split; [exact Hl|].
          exists k', v'. split; [now right | exact Hocc].
        - rewrite Hl. cbn [is_none]. right. exists l. split; [reflexivity|].
          exists k, x. split; [now left | exact Hocc]. }
      destruct H as [Hn|(l & Hl & k & v & Hin & Hocc)]; [now left|].
      right. exists l. split; [exact Hl|].
      now apply occurs_value with (k := k) (v := v).
Qed.

(** C2: in a mapping where priority keys hold lists, [find_first_list]
    returns the list under the one that comes first in the declared
    order ([k], with no list under any priority key before it), and the
    answer is the same for every insertion order of the mapping. *)
Theorem find_first_list_priority_order
        (d d' : pydict) (before after : list string) (k : string) (l : list json)
        (Hkeys : NoDup (map fst d))
        (Horder : Permutation d d')
        (Hsplit : preferred_keys = (before ++ k :: after)%list)
        (Hbefore : forall k', In k' before -> holds_list d k' = false)
        (Hget : dict_get d k = Some (JList l)) :
  find_first_list (JDict d) = JList l /\ find_first_list (JDict d') = JList l.
Proof.
  assert (H : find_first_list (JDict d) = JList l).
  { apply find_first_list_locates. now apply locates_priority with before k after. }
  split; [exact H|].
  rewrite find_first_list_dict in *.
  rewrite <- (preferred_loop_Permutation d d' preferred_keys Hkeys Horder).
  destruct (preferred_loop d preferred_keys) as [found|] eqn:E; [exact H|].
  exfalso. rewrite preferred_loop_find in E.
  assert (Hfind : find (holds_list d) preferred_keys = Some k).
  { rewrite Hsplit. clear Hsplit. induction before as [|b bs IHb]; simpl.
    - unfold holds_list. now rewrite Hget.
    - rewrite (Hbefore b) by now left.
      apply IHb. intros k' Hk'. apply Hbefore. now right. }
  rewrite Hfind, Hget in E. discriminate.
Qed.

(** Both insertion orders of [data] and [requests] give the list under
    [requests], the earlier priority key. *)
Lemma find_first_list_priority_order_witness :
  find_first_list (JDict data_then_requests) = JList [JNum 2] /\
  find_first_list (JDict requests_then_data) = JList [JNum 2].
Proof.
  apply (find_first_list_priority_order
           data_then_requests requests_then_data
           [] ["request"; "data"; "result"; "results"; "records"; "response"]
           "requests" [JNum 2]).
  - repeat constructor; simpl; intuition discriminate.
  - apply perm_swap.
  - reflexivity.
  - intros k' [].
  - reflexivity.
Defined.

End LocatorSpec.

(* ------------------------------------------------------------------ *)
(** ** The specification's statements about the conversion to a table *)

Module ConversionSpec.
Import Json Py Pandas Locator Tabular DictFacts LocatorFacts PandasFacts Samples.

Section Conversion.
Variable normalize_irregular : list json -> outcome DataFrame.
Variable pd_DataFrame : json -> outcome DataFrame.

Local Abbreviation to_frame := (json_to_dataframe normalize_irregular pd_DataFrame).

(** A mapping in which nothing is found becomes the one-row frame of
    its flattened form. *)
Lemma json_to_dataframe_single_object d :
  find_first_list (JDict d) = JNull ->
  to_frame (JDict d) =
  Returns {| columns := map LStr (map fst (flatten d));
             rows := [map Some (map snd (flatten d))] |}.
Proof.
  intros Hnone. unfold Tabular.json_to_dataframe. rewrite Hnone.
  cbn [is_none negb json_normalize try_except].
  f_equal. apply DataFrame_of_one_record, flatten_NoDup.
Qed.

(** A mapping in which the empty list is found becomes the empty
    frame. *)
Lemma json_to_dataframe_empty_list_found d :
  find_first_list (JDict d) = JList [] ->
  to_frame (JDict d) = Returns empty_frame.
Proof.
  intros Hfound. unfold Tabular.json_to_dataframe. now rewrite Hfound.
Qed.

(** C3: for every mapping with no list anywhere in its nested
    structure, [find_first_list] returns null and [json_to_dataframe]
    produces a one-row table whose columns are the dot-joined paths of
    the mapping's leaves, each cell holding the leaf of its column. *)
Theorem json_to_dataframe_without_list
        (d : pydict) (Hno : contains_list (JDict d) = false) :
  find_first_list (JDict d) = JNull /\
  to_frame (JDict d) =
    Returns {| columns := map LStr (map fst (flatten d));
               rows := [map Some (map snd (flatten d))] |} /\
  (forall p x, In (p, x) (leaf_items [] (JDict d)) ->
               In (dotted p) (map fst (flatten d))) /\
  (forall c x, In (c, x) (flatten d) ->
               exists p, In (p, x) (leaf_items [] (JDict d)) /\ c = dotted p).
Proof.
  assert (Hnone : find_first_list (JDict d) = JNull)
    by now apply find_first_list_no_list.
  split; [exact Hnone|]. split; [now apply json_to_dataframe_single_object|].
  split.
  - intros p x Hin. unfold flatten. now apply flatten_walk_complete with (x := x).
  - intros c x Hin. unfold flatten in Hin.
    apply flatten_walk_sound in Hin as [[]|H]. exact H.
Qed.

(** C5: an empty list is an answer of its own, not null: where the
    located list is empty (the input [[]] itself, or a mapping in which
    the search arrives at an empty list) [find_first_list] returns the
    empty list, and [json_to_dataframe] yields the table with zero rows
    and zero columns, not the one-row table of the single-object
    fallback. *)
Theorem find_first_list_empty_list_not_null
        (obj : json) (Hloc : locates obj []) :
  find_first_list obj = JList [] /\
  is_none (find_first_list obj) = false /\
  to_frame obj = Returns empty_frame /\
  columns empty_frame = [] /\ rows empty_frame = [] /\
  (forall d, obj = JDict d ->
             to_frame obj <> Returns (DataFrame_of_records [flatten d])).
Proof.
  assert (Hfound : find_first_list obj = JList [])
    by now apply find_first_list_locates.
  assert (Hframe : to_frame obj = Returns empty_frame).
  { destruct obj as [ | b | n | s | items | d]; try (now inversion Hloc).
    now apply json_to_dataframe_empty_list_found. }
  repeat split; try assumption; try (now rewrite Hfound).
  intros d -> Heq. rewrite Hframe in Heq.
  apply (f_equal (fun o => match o with
                           | Returns df => List.length (rows df)
                           | Raises _ => 0
                           end)) in Heq.
  discriminate.
Qed.
End Conversion.

(** Scenario B: [{status: ok, data: {id: 5}}] gives one row with the
    columns [status] and [data.id]. *)
Lemma json_to_dataframe_without_list_witness :
  find_first_list (JDict status_and_data) = JNull /\
  json_to_dataframe (fun _ => no_frame) (fun _ => no_frame) (JDict status_and_data) =
    Returns {| columns := [LStr "status"; LStr "data.id"];
               rows := [[Some (JStr "ok"); Some (JStr "5")]] |}.
Proof.
  destruct (json_to_dataframe_without_list
              (fun _ => no_frame) (fun _ => no_frame) status_and_data eq_refl)
    as (Hnull & Hframe & _).
  split; [exact Hnull | exact Hframe].
Defined.

(** Scenario C and its nested form: [[]] and [{requests: []}] both give
    the empty list and the empty frame. *)
Lemma find_first_list_empty_list_not_null_witness :
  (find_first_list (JList []) = JList [] /\
   json_to_dataframe (fun _ => no_frame) (fun _ => no_frame) (JList []) =
     Returns empty_frame) /\
  (find_first_list (JDict no_requests) = JList [] /\
   json_to_dataframe (fun _ => no_frame) (fun _ => no_frame) (JDict no_requests) =
     Returns empty_frame).
Proof.
  split.
  - destruct (find_first_list_empty_list_not_null
                (fun _ => no_frame) (fun _ => no_frame) (JList []) (locates_self []))
      as (Hfound & _ & Hframe & _).
    split; [exact Hfound | exact Hframe].
  - assert (Hloc : locates (JDict no_requests) []).
    { apply locates_priority
        with (before := []) (k := "requests")
             (after := ["request"; "data"; "result"; "results"; "records"; "response"]).
      - reflexivity.
      - intros k' [].
      - reflexivity. }
    destruct (find_first_list_empty_list_not_null
                (fun _ => no_frame) (fun _ => no_frame) (JDict no_requests) Hloc)
      as (Hfound & _ & Hframe & _).
    split; [exact Hfound | exact Hframe].
Defined.

End ConversionSpec.

(* ------------------------------------------------------------------ *)
(** ** The specification's statements about the projection *)

Module ProjectionSpec.
Import Json Py Pandas Tabular ProjectorFacts Samples.

(** C1: for every table [t] and every preference list,
    [pick_preferred_columns] returns a table with no column from outside
    [t]; when some preferred column occurs in [t], its column list is
    exactly the preferred columns that occur in [t], in preference
    order; when none occurs, the result is [t] unchanged.  Only the
    middle part rests on [t] being a table of the data model (unique
    column names, derived from the rows): the first and the last hold
    for any frame. *)
Theorem pick_preferred_columns_projection
        (t : DataFrame) (preferred : list string) :
  exists r,
    pick_preferred_columns (Some t) preferred = Returns (Some r) /\
    (forall c, In c (columns r) -> In c (columns t)) /\
    (table t -> present_columns t preferred <> [] ->
     columns r = map LStr (present_columns t preferred)) /\
    (present_columns t preferred = [] -> r = t).
Proof.
  destruct (empty t) eqn:He.
  - exists t. rewrite pick_preferred_columns_empty by exact He.
    split; [reflexivity|]. split; [auto|]. split; [|auto].
    intros [_ Hderived] Hp. exfalso.
    assert (Hnone : columns t = []).
    { unfold empty in He. destruct (columns t) as [|c cs]; [reflexivity|].
      destruct (rows t) as [|row rws]; [now apply Hderived | discriminate]. }
    destruct (present_columns t preferred) as [|c0 cs] eqn:E; [congruence|].
    assert (Hin : In c0 (present_columns t preferred)) by (rewrite E; now left).
    apply present_columns_In in Hin as [_ Hin]. rewrite Hnone in Hin. exact Hin.
  - destruct (present_columns t preferred) as [|c0 cs] eqn:Hp.
    + exists t. rewrite pick_preferred_columns_none_present by exact Hp.
      repeat split; auto; congruence.
    + rewrite <- Hp.
      assert (Hne : present_columns t preferred <> []) by (rewrite Hp; discriminate).
      eexists. rewrite pick_preferred_columns_some_present by assumption.
      split; [reflexivity|]. cbn [columns]. split; [|split].
      * intros c Hc. now apply selected_columns_In in Hc.
      * intros [Hunique _] _. apply selected_columns_unique; [exact Hunique|].
        apply Forall_forall. intros k Hk.
        apply in_map_iff in Hk as (c & <- & Hc).
        now apply present_columns_In in Hc.
      * intros Hnil. contradiction.
Qed.

(** On the one-ticket table the preference [subject, nope, id] keeps
    [subject] and [id], in that order. *)
Lemma pick_preferred_columns_projection_witness :
  exists r,
    pick_preferred_columns (Some one_ticket) ["subject"; "nope"; "id"]
      = Returns (Some r) /\
    columns r = [LStr "subject"; LStr "id"].
Proof.
  assert (Htable : table one_ticket).
  { split; [repeat constructor; simpl; intuition discriminate | discriminate]. }
  destruct (pick_preferred_columns_projection one_ticket ["subject"; "nope"; "id"])
    as (r & Hpick & _ & Hcols & _).
  exists r. split; [exact Hpick|].
  apply Hcols; [exact Htable | discriminate].
Defined.

(** C8: for every table [t] and preference list, the result of
    [pick_preferred_columns] has as many rows as [t], in the same order,
    and each of its columns is a column of [t] with the same label and,
    row by row, the same cells. *)
Theorem pick_preferred_columns_keeps_rows (t : DataFrame) (preferred : list string) :
  exists r,
    pick_preferred_columns (Some t) preferred = Returns (Some r) /\
    List.length (rows r) = List.length (rows t) /\
    forall j c, nth_error (columns r) j = Some c ->
      exists k, nth_error (columns t) k = Some c /\
        forall i row, nth_error (rows t) i = Some row ->
          exists row', nth_error (rows r) i = Some row' /\
                       nth j row' None = nth k row None.
Proof.
  assert (Hsame : pick_preferred_columns (Some t) preferred = Returns (Some t) ->
    exists r,
      pick_preferred_columns (Some t) preferred = Returns (Some r) /\
      List.length (rows r) = List.length (rows t) /\
      forall j c, nth_error (columns r) j = Some c ->
        exists k, nth_error (columns t) k = Some c /\
          forall i row, nth_error (rows t) i = Some row ->
            exists row', nth_error (rows r) i = Some row' /\
                         nth j row' None = nth k row None).
  { intros H. exists t. split; [exact H|]. split; [reflexivity|].
    intros j c Hj. exists j. split; [exact Hj|].
    intros i row Hi. exists row. now split. }
  destruct (empty t) eqn:He.
  - apply Hsame. now apply pick_preferred_columns_empty.
  - destruct (present_columns t preferred) as [|c0 cs] eqn:Hp.
    + apply Hsame. now apply pick_preferred_columns_none_present.
    + assert (Hne : present_columns t preferred <> []) by (rewrite Hp; discriminate).
      eexists. rewrite pick_preferred_columns_some_present by assumption.
      split; [reflexivity|]. cbn [columns rows]. split; [apply length_map|].
      intros j c Hj. apply selected_column_source in Hj as (k & Hidx & Hk).
      exists k. split; [exact Hk|].
      intros i row Hi. eexists. split.
      * apply map_nth_error. exact Hi.
      * apply nth_error_nth.
        now apply (map_nth_error (fun i0 : nat => nth i0 row None)).
Qed.

End ProjectionSpec.

(* ------------------------------------------------------------------ *)
(** ** The specification's statements about what the view shows *)

Module RenderingSpec.
Import Json Py Pandas Locator Tabular Samples.

Section Rendering.
Variable normalize_irregular : list json -> outcome DataFrame.
Variable pd_DataFrame : json -> outcome DataFrame.
Variable to_csv : DataFrame -> string.
Variable json_loads : string -> outcome json.

(** Handed an empty or missing table, [interactive_table] shows its
    notice and nothing else. *)
Lemma interactive_table_no_data df default_columns title :
  match df with Some t => empty t = true | None => True end ->
  interactive_table to_csv df default_columns title =
  done [st_info "No tableable data to display."].
Proof.
  destruct df as [t|]; [|reflexivity].
  intros He. unfold interactive_table. now rewrite He.
Qed.

(** C7, as the code has it: for every response with a status code,
    when the parsed JSON is falsy, or is truthy with an empty
    converted table (no row or no column), [view_request_flow] makes
    exactly one call and stops: [st.json(parsed)] for the empty table,
    [st.text(text)] for the falsy value.  No table is drawn and the
    notice of [interactive_table] is not shown. *)
Theorem view_request_flow_empty_result
        (status : Z) (text : string) (j : json)
        (Hempty :
           truthy (parse_response json_loads text j) = false \/
           exists df,
             json_to_dataframe normalize_irregular pd_DataFrame
                               (parse_response json_loads text j) = Returns df /\
             empty df = true) :
  view_request_flow normalize_irregular pd_DataFrame to_csv json_loads
                    (Some status) text j =
  done [if truthy (parse_response json_loads text j)
        then st_json (parse_response json_loads text j)
        else st_text text].
Proof.
  unfold view_request_flow.
  destruct (truthy (parse_response json_loads text j)) eqn:Ht; [|reflexivity].
  destruct Hempty as [Hf|(df & Hdf & He)]; [discriminate|].
  now rewrite Hdf, He.
Qed.
End Rendering.

(** The response [{requests: []}] is shown as raw JSON. *)
Lemma view_request_flow_empty_result_witness :
  view_request_flow (fun _ => no_frame) (fun _ => no_frame) (fun _ => EmptyString)
                    (fun _ => unparsed) (Some 200%Z) "body" (JDict no_requests) =
  done [st_json (JDict no_requests)].
Proof.
  apply (view_request_flow_empty_result
           (fun _ => no_frame) (fun _ => no_frame) (fun _ => EmptyString) (fun _ => unparsed)
           200%Z "body" (JDict no_requests)).
  right. exists empty_frame. split; reflexivity.
Defined.

(** For the response [{requests: []}] the converted table has no row,
    and no [st.info] notice is among the calls: the property as stated
    fails there. *)
Lemma empty_result_as_stated_fails :
  ~ empty_result_as_stated (fun _ => no_frame) (fun _ => no_frame) (fun _ => EmptyString)
                           (fun _ => unparsed).
Proof.
  intros H.
  destruct (H 200%Z "body" (JDict no_requests) empty_frame eq_refl eq_refl)
    as [notice Hin].
  simpl in Hin. destruct Hin as [Hin|[]]. discriminate Hin.
Qed.

End RenderingSpec.

(* ------------------------------------------------------------------ *)
(** ** The specification's statements about the request wrappers *)

Module HttpSpec.
Import Json Py Http Samples.

(** A failed connection or a timeout, a [RequestException] raised by
    the call itself, comes back as a null status with the message. *)
Lemma safe_request_get_transport_failure e :
  isinstance_RequestException e = true ->
  safe_request_get (Raises e) = Returns (None, str e, JNull).
Proof. intros H. unfold safe_request_get. now rewrite H. Qed.

Lemma safe_request_post_transport_failure e :
  isinstance_RequestException e = true ->
  safe_request_post (Raises e) = Returns (None, str e, JNull).
Proof. intros H. unfold safe_request_post. now rewrite H. Qed.

(** A received response carries its status code in every triple that
    comes back, provided [r.json()] raises no [RequestException]. *)
Lemma safe_request_get_response_status r status body j :
  (forall e, json_ r = Raises e -> isinstance_RequestException e = false) ->
  safe_request_get (Returns r) = Returns (status, body, j) ->
  status = Some (status_code r).
Proof.
  intros Hjson. unfold safe_request_get.
  destruct (str_contains "application/json" (content_type r)).
  - destruct (json_ r) as [v|e] eqn:E.
    + now intros [= <- _ _].
    + rewrite (Hjson e eq_refl).
      destruct (isinstance_ValueError e); [now intros [= <- _ _] | discriminate].
  - now intros [= <- _ _].
Qed.

Lemma safe_request_post_response_status r status body j :
  (forall e, json_ r = Raises e -> isinstance_RequestException e = false) ->
  safe_request_post (Returns r) = Returns (status, body, j) ->
  status = Some (status_code r).
Proof.
  intros Hjson. unfold safe_request_post.
  destruct (str_contains "application/json" (content_type r)).
  - destruct (json_ r) as [v|e] eqn:E.
    + now intros [= <- _ _].
    + rewrite (Hjson e eq_refl).
      destruct (isinstance_ValueError e); [now intros [= <- _ _] | discriminate].
  - now intros [= <- _ _].
Qed.

(** A [ValueError] raised by [r.json()] that is no [RequestException]
    returns the status code and the raw body. *)
Lemma safe_request_get_plain_decode_error r e :
  str_contains "application/json" (content_type r) = true ->
  json_ r = Raises e ->
  isinstance_RequestException e = false ->
  isinstance_ValueError e = true ->
  safe_request_get (Returns r) = Returns (Some (status_code r), text r, JNull).
Proof.
  intros Hct Hjson Hreq Hval. unfold safe_request_get.
  now rewrite Hct, Hjson, Hreq, Hval.
Qed.

(** C6: a received response need not carry its status code.  A 500
    response declared as JSON whose body does not decode, the decode
    error being a [RequestException] as well as a [ValueError], comes
    back from both wrappers with a null status and the error message,
    the very triple a failed connection with that message gives; the raw
    body is not returned. *)
Theorem safe_request_undecodable_body_null_status :
  safe_request_get (Returns not_json_response) = Returns (None, str undecodable, JNull) /\
  safe_request_post (Returns not_json_response) = Returns (None, str undecodable, JNull) /\
  safe_request_get (Returns not_json_response) = safe_request_get (Raises connection_failed) /\
  safe_request_post (Returns not_json_response) = safe_request_post (Raises connection_failed).
Proof. repeat split. Qed.

(** C10: the [ValueError] clause can be entered with [r] unbound.  When
    the call itself raises a [ValueError] that is no [RequestException],
    both wrappers evaluate [str(e)] with [e] unbound and raise
    [UnboundLocalError] instead of returning a triple. *)
Theorem safe_request_value_error_before_response :
  safe_request_get (Raises header_not_latin1) = Raises (UnboundLocalError "e") /\
  safe_request_post (Raises header_not_latin1) = Raises (UnboundLocalError "e").
Proof. split; reflexivity. Qed.

End HttpSpec.

(* ------------------------------------------------------------------ *)
(** ** More about the locator *)

Module LocatorMore.
Import Json Py Pandas Locator DictFacts LocatorFacts Samples MoreSamples.

Lemma find_first_list_null_or_list obj :
  find_first_list obj = JNull \/ exists l, find_first_list obj = JList l.
Proof.
  induction obj as [ | b | n | s | items _ | d IH] using json_rect2;
    try (left; reflexivity).
  - right. now exists items.
  - rewrite find_first_list_dict.
    destruct (preferred_loop d preferred_keys) as [found|] eqn:E.
    + apply preferred_loop_Some in E as (k & l & _ & _ & ->). right. now exists l.
    + clear E. induction IH as [|[k x] r Hx _ IHr]; cbn [values_loop]; [now left|].
      cbn [snd] in Hx. destruct Hx as [->|(l & ->)]; cbn [is_none].
      * exact IHr.
      * right. now exists l.
Qed.

(** A value with a list below it never gives [None]. *)
Lemma find_first_list_finds v :
  contains_list v = true -> find_first_list v <> JNull.
Proof.
  induction v as [ | b | n | s | items _ | d IH] using json_rect2;
    try discriminate.
  rewrite contains_list_dict, find_first_list_dict. unfold any_value_contains_list.
  intros Hany.
  destruct (preferred_loop d preferred_keys) as [found|] eqn:E.
  - apply preferred_loop_Some in E as (k & l & _ & _ & ->). discriminate.
  - clear E. induction IH as [|[k x] r Hx _ IHr]; [discriminate|].
    cbn [existsb snd] in Hany. cbn [snd] in Hx. cbn [values_loop].
    destruct (find_first_list x) eqn:Ex; cbn [is_none]; try discriminate.
    apply IHr. destruct (contains_list x); [|exact Hany].
    exfalso. now apply Hx.
Qed.

Lemma find_split {A : Type} (f : A -> bool) (l : list A) (x : A) :
  find f l = Some x ->
  exists before after,
    l = (before ++ x :: after)%list /\ forall y, In y before -> f y = false.
Proof.
  induction l as [|a l IH]; simpl; [discriminate|].
  destruct (f a) eqn:Ea.
  - intros [= ->]. exists [], l. split; [reflexivity | intros y []].
  - intros H. destruct (IH H) as (before & after & -> & Hb).
    exists (a :: before), after. split; [reflexivity|].
    intros y [<-|Hy]; [exact Ea | now apply Hb].
Qed.

Lemma values_loop_split d l :
  values_loop d = JList l ->
  exists before k v after,
    d = (before ++ (k, v) :: after)%list /\
    Forall (fun kv => find_first_list (snd kv) = JNull) before /\
    find_first_list v = JList l.
Proof.
  induction d as [|[k x] r IH]; cbn [values_loop]; [discriminate|].
  destruct (find_first_list x) eqn:Ex; cbn [is_none].
  - intros H. destruct (IH H) as (before & k' & v & after & -> & Hb & Hv).
    exists ((k, x) :: before), k', v, after.
    split; [reflexivity|]. split; [|exact Hv]. constructor; [exact Ex | exact Hb].
  - discriminate.
  - discriminate.
  - discriminate.
  - intros [= <-]. exists [], k, x, r. repeat split; [constructor | exact Ex].
  - discriminate.
Qed.

(** X1: [find_first_list] returns [None] exactly when no list sits
    anywhere below the input, at any depth of nested mappings. *)
Theorem find_first_list_none_iff_no_list (obj : json) :
  find_first_list obj = JNull <-> contains_list obj = false.
Proof.
  split.
  - intros Hnull. destruct (contains_list obj) eqn:E; [|reflexivity].
    exfalso. now apply (find_first_list_finds obj E).
  - apply find_first_list_no_list.
Qed.

(** X2: the code and the search order of the specification agree in
    both directions: [find_first_list] returns the list [l] exactly when
    [l] is the list that order locates. *)
Theorem find_first_list_iff_locates (obj : json) (l : list json) :
  find_first_list obj = JList l <-> locates obj l.
Proof.
  split; [|apply find_first_list_locates].
  revert l. induction obj as [ | b | n | s | items _ | d IH] using json_rect2;
    intros l Hfound; try discriminate.
  - injection Hfound as <-. constructor.
  - rewrite find_first_list_dict, preferred_loop_find in Hfound.
    destruct (find (holds_list d) preferred_keys) as [k|] eqn:Ef.
    + destruct (find_some _ _ Ef) as [_ Hk]. unfold holds_list in Hk.
      destruct (dict_get d k) as [v|] eqn:Eg; [|discriminate]. subst v.
      apply find_split in Ef as (before & after & Hsplit & Hb).
      now apply locates_priority with before k after.
    + apply values_loop_split in Hfound
        as (before & k & v & after & -> & Hb & Hv).
      apply locates_nested with before k v after.
      * intros k' Hk'. now apply (find_none _ _ Ef).
      * reflexivity.
      * eapply Forall_impl; [|exact Hb]. intros kv Hkv.
        destruct (contains_list (snd kv)) eqn:E; [|reflexivity].
        exfalso. now apply (find_first_list_finds _ E).
      * rewrite Forall_forall in IH.
        apply (IH (k, v)); [|exact Hv].
        apply in_or_app. right. now left.
Qed.

(** X3: running the locator on its own answer changes nothing. *)
Theorem find_first_list_idempotent (obj : json) :
  find_first_list (find_first_list obj) = find_first_list obj.
Proof.
  destruct (find_first_list_null_or_list obj) as [->|(l & ->)]; reflexivity.
Qed.

End LocatorMore.

(* ------------------------------------------------------------------ *)
(** ** More about the projection *)

Module ProjectionMore.
Import Json Py Pandas Tabular Shape ProjectorFacts Samples MoreSamples.

(** The two ways [pick_preferred_columns] answers for a frame. *)
Lemma pick_preferred_columns_cases t preferred :
  (pick_preferred_columns (Some t) preferred = Returns (Some t) /\
   (empty t = true \/ present_columns t preferred = [])) \/
  (pick_preferred_columns (Some t) preferred =
     Returns (Some (selected t (present_columns t preferred))) /\
   empty t = false /\ present_columns t preferred <> []).
Proof.
  destruct (empty t) eqn:He.
  - left. split; [now apply pick_preferred_columns_empty | now left].
  - destruct (present_columns t preferred) as [|c cs] eqn:Hp.
    + left. split; [now apply pick_preferred_columns_none_present | now right].
    + right. rewrite <- Hp.
      assert (Hne : present_columns t preferred <> []) by (rewrite Hp; discriminate).
      split; [now apply pick_preferred_columns_some_present | now split].
Qed.

Lemma positions_from_present cols : forall n c,
  In c cols -> positions_from n cols c <> [].
Proof.
  induction cols as [|c' rest IH]; intros n c Hin; [contradiction|]. simpl.
  destruct (label_eqb c c') eqn:E; [discriminate|].
  destruct Hin as [->|Hin]; [|now apply IH].
  assert (Ht : label_eqb c c = true) by now apply label_eqb_eq. congruence.
Qed.

Lemma empty_false t :
  empty t = false <-> columns t <> [] /\ rows t <> [].
Proof.
  unfold empty. destruct (columns t), (rows t); split;
    try discriminate; try (intros [H1 H2]; congruence);
    intros _; split; discriminate.
Qed.

Lemma selected_not_empty t present :
  empty t = false -> present <> [] ->
  Forall (fun c => In (LStr c) (columns t)) present ->
  empty (selected t present) = false.
Proof.
  intros He Hp Hall. apply empty_false in He as [_ Hrows]. apply empty_false.
  unfold selected. cbn [columns rows]. split.
  - destruct present as [|c cs]; [congruence|].
    inversion Hall as [|? ? Hc _]; subst. cbn [map flat_map].
    pose proof (positions_from_present (columns t) 0 (LStr c) Hc) as Hpos.
    unfold positions.
    destruct (positions_from 0 (columns t) (LStr c)); [congruence | discriminate].
  - destruct (rows t); [congruence | discriminate].
Qed.

Lemma present_columns_all_in t preferred :
  Forall (fun c => In (LStr c) (columns t)) (present_columns t preferred).
Proof.
  apply Forall_forall. intros c Hc. now apply present_columns_In in Hc.
Qed.

Lemma selected_width cols keys :
  List.length (flat_map (fun k => map (fun _ : nat => k) (positions cols k)) keys) =
  List.length (flat_map (positions cols) keys).
Proof.
  induction keys as [|k ks IH]; simpl; [reflexivity|].
  now rewrite !length_app, length_map, IH.
Qed.

Lemma NoDup_map_LStr l : NoDup l -> NoDup (map LStr l).
Proof.
  induction 1 as [|c l Hnotin _ IH]; simpl; constructor; [|exact IH].
  intros Hin. apply in_map_iff in Hin as (c' & [= ->] & Hc'). contradiction.
Qed.

Lemma pick_result_empty t r preferred :
  pick_preferred_columns (Some t) preferred = Returns (Some r) ->
  empty r = empty t.
Proof.
  intros Hpick.
  destruct (pick_preferred_columns_cases t preferred)
    as [[Hsame _]|(Hsel & He & Hp)].
  - rewrite Hsame in Hpick. now injection Hpick as <-.
  - rewrite Hsel in Hpick. injection Hpick as <-. rewrite He.
    apply selected_not_empty; [exact He | exact Hp | apply present_columns_all_in].
Qed.

Lemma pick_returns t preferred :
  exists r, pick_preferred_columns (Some t) preferred = Returns (Some r).
Proof.
  destruct (pick_preferred_columns_cases t preferred) as [[H _]|[H _]];
    eexists; exact H.
Qed.

(** X4: [pick_preferred_columns] never turns a table with data into
    an empty one, nor the reverse: the result is empty exactly when the
    input is. *)
Theorem pick_preferred_columns_empty_iff (t : DataFrame) (preferred : list string) :
  exists r,
    pick_preferred_columns (Some t) preferred = Returns (Some r) /\
    empty r = empty t.
Proof.
  destruct (pick_preferred_columns_cases t preferred)
    as [[Hpick _]|(Hpick & He & Hp)].
  - now exists t.
  - eexists. split; [exact Hpick|]. rewrite He.
    apply selected_not_empty; [exact He | exact Hp | apply present_columns_all_in].
Qed.

(** X5: [pick_preferred_columns] keeps a frame in shape: if every row
    of the input has one cell per column, so has every row of the
    result; and if the labels of the input are unique and no preference
    is listed twice, the labels of the result are unique. *)
Theorem pick_preferred_columns_keeps_shape
        (t r : DataFrame) (preferred : list string)
        (Hpick : pick_preferred_columns (Some t) preferred = Returns (Some r)) :
  (rows_fit t -> rows_fit r) /\
  (NoDup (columns t) -> NoDup preferred -> NoDup (columns r)).
Proof.
  destruct (pick_preferred_columns_cases t preferred)
    as [[Hsame _]|(Hsel & He & Hp)].
  - rewrite Hsame in Hpick. injection Hpick as <-. split; auto.
  - rewrite Hsel in Hpick. injection Hpick as <-. split.
    + intros _. unfold rows_fit, selected. cbn [columns rows].
      apply Forall_forall. intros row Hrow.
      apply in_map_iff in Hrow as (row0 & <- & _).
      now rewrite length_map, selected_width.
    + intros Hcols Hpref. unfold selected. cbn [columns].
      rewrite selected_columns_unique.
      * apply NoDup_map_LStr. unfold present_columns. now apply NoDup_filter.
      * exact Hcols.
      * apply Forall_forall. intros k Hk.
        apply in_map_iff in Hk as (c & <- & Hc).
        now apply present_columns_In in Hc.
Qed.

Lemma pick_preferred_columns_keeps_shape_witness :
  rows_fit {| columns := [LStr "subject"; LStr "id"];
              rows := [[Some (JStr "X"); Some (JStr "1")]] |} /\
  NoDup [LStr "subject"; LStr "id"].
Proof.
  assert (Hpick : pick_preferred_columns (Some one_ticket) ["subject"; "nope"; "id"] =
                  Returns (Some {| columns := [LStr "subject"; LStr "id"];
                                   rows := [[Some (JStr "X"); Some (JStr "1")]] |}))
    by reflexivity.
  destruct (pick_preferred_columns_keeps_shape _ _ _ Hpick) as [Hfit Hnd].
  split.
  - apply Hfit. repeat constructor.
  - apply Hnd; repeat constructor; simpl; intuition discriminate.
Defined.

End ProjectionMore.

(* ------------------------------------------------------------------ *)
(** ** Projecting twice, and what the table view draws *)

Module RenderingMore.
Import Json Py Pandas Locator Tabular Shape ProjectorFacts ProjectionMore
       Samples MoreSamples.

Lemma positions_from_app a : forall n b c,
  positions_from n (a ++ b) c =
  (positions_from n a c ++ positions_from (n + List.length a) b c)%list.
Proof.
  induction a as [|x a IH]; intros n b c; simpl.
  - now rewrite Nat.add_0_r.
  - rewrite IH. replace (S n + List.length a) with (n + S (List.length a)) by lia.
    now destruct (label_eqb c x).
Qed.

(** In a list of unique labels each label sits at its own index. *)
Lemma positions_own_index suf : forall pre,
  NoDup (pre ++ suf) ->
  flat_map (positions (pre ++ suf)) suf = seq (List.length pre) (List.length suf).
Proof.
  induction suf as [|k suf IH]; intros pre Hnd; [reflexivity|].
  cbn [flat_map List.length seq].
  assert (Hk : positions (pre ++ k :: suf) k = [List.length pre]).
  { unfold positions. rewrite positions_from_app. cbn [positions_from Nat.add].
    assert (Ht : label_eqb k k = true) by now apply label_eqb_eq.
    rewrite Ht.
    rewrite positions_from_absent, positions_from_absent; [reflexivity | | ].
    - apply NoDup_remove_2 in Hnd. intros H. apply Hnd. apply in_or_app. now right.
    - apply NoDup_remove_2 in Hnd. intros H. apply Hnd. apply in_or_app. now left. }
  rewrite Hk. cbn [app]. f_equal.
  replace (pre ++ k :: suf)%list with ((pre ++ [k]) ++ suf)%list
    by now rewrite <- app_assoc.
  rewrite IH.
  - rewrite length_app. cbn [List.length]. f_equal. lia.
  - now rewrite <- app_assoc.
Qed.

Lemma map_nth_seq {A : Type} (d : A) (row : list A) :
  map (fun i => nth i row d) (seq 0 (List.length row)) = row.
Proof.
  induction row as [|a row IH]; [reflexivity|].
  cbn [List.length seq map nth]. f_equal.
  rewrite <- seq_shift, map_map. exact IH.
Qed.

(** Selecting all the columns of a well-shaped frame, in their own
    order, gives the frame back. *)
Lemma selected_self r keys :
  NoDup keys -> columns r = map LStr keys -> rows_fit r -> selected r keys = r.
Proof.
  intros Hnd Hcols Hfit. destruct r as [cols rws]. cbn [columns] in Hcols. subst cols.
  unfold selected. cbn [columns rows]. f_equal.
  - apply selected_columns_unique; [now apply NoDup_map_LStr|].
    now apply Forall_forall.
  - pose proof (positions_own_index (map LStr keys) [] (NoDup_map_LStr _ Hnd)) as Hidx.
    cbn [app List.length] in Hidx. rewrite Hidx.
    unfold rows_fit in Hfit. cbn [columns rows] in Hfit.
    induction Hfit as [|row rws Hrow _ IH]; [reflexivity|].
    cbn [map]. rewrite IH, <- Hrow.
    exact (f_equal (fun x => x :: rws) (map_nth_seq None row)).
Qed.

Lemma present_columns_selected t preferred :
  NoDup (columns t) ->
  present_columns (selected t (present_columns t preferred)) preferred =
  present_columns t preferred.
Proof.
  intros Hnd. unfold present_columns at 1 3. apply filter_ext_in. intros c Hc.
  assert (Hcols : columns (selected t (present_columns t preferred)) =
                  map LStr (present_columns t preferred)).
  { unfold selected. cbn [columns]. apply selected_columns_unique; [exact Hnd|].
    apply Forall_forall. intros k Hk. apply in_map_iff in Hk as (c' & <- & Hc').
    now apply present_columns_In in Hc'. }
  apply eq_true_iff_eq. rewrite !in_columns_In, Hcols. split.
  - intros Hin. apply in_map_iff in Hin as (c' & [= ->] & Hc').
    now apply present_columns_In in Hc'.
  - intros Hin. apply in_map. now apply present_columns_In.
Qed.

(** The result of a projection, projected again. *)
Lemma selected_twice t preferred :
  NoDup (columns t) -> NoDup preferred ->
  selected (selected t (present_columns t preferred)) (present_columns t preferred) =
  selected t (present_columns t preferred).
Proof.
  intros Hcols Hpref. apply selected_self.
  - unfold present_columns. now apply NoDup_filter.
  - unfold selected. cbn [columns]. apply selected_columns_unique; [exact Hcols|].
    apply Forall_forall. intros k Hk. apply in_map_iff in Hk as (c & <- & Hc).
    now apply present_columns_In in Hc.
  - unfold rows_fit, selected. cbn [columns rows].
    apply Forall_forall. intros row Hrow.
    apply in_map_iff in Hrow as (row0 & <- & _).
    now rewrite length_map, selected_width.
Qed.

Lemma pick_twice t r preferred :
  NoDup (columns t) -> NoDup preferred ->
  pick_preferred_columns (Some t) preferred = Returns (Some r) ->
  pick_preferred_columns (Some r) preferred = Returns (Some r).
Proof.
  intros Hcols Hpref Hpick.
  destruct (pick_preferred_columns_cases t preferred)
    as [[Hsame _]|(Hsel & He & Hp)].
  - rewrite Hsame in Hpick. injection Hpick as <-. exact Hsame.
  - rewrite Hsel in Hpick. injection Hpick as <-.
    rewrite pick_preferred_columns_some_present.
    + rewrite present_columns_selected by exact Hcols.
      do 2 f_equal. now apply selected_twice.
    + apply selected_not_empty; [exact He | exact Hp | apply present_columns_all_in].
    + now rewrite present_columns_selected.
Qed.

(** X6: projecting the result of [pick_preferred_columns] again on
    the same preference list gives it back unchanged, for a table with
    unique labels and a list without repetition. *)
Theorem pick_preferred_columns_idempotent
        (t r : DataFrame) (preferred : list string)
        (Hcols : NoDup (columns t)) (Hpref : NoDup preferred)
        (Hpick : pick_preferred_columns (Some t) preferred = Returns (Some r)) :
  pick_preferred_columns (Some r) preferred = Returns (Some r).
Proof. now apply pick_twice with t. Qed.

Lemma pick_preferred_columns_idempotent_witness :
  pick_preferred_columns
    (Some {| columns := [LStr "subject"; LStr "id"];
             rows := [[Some (JStr "X"); Some (JStr "1")]] |})
    ["subject"; "nope"; "id"] =
  Returns (Some {| columns := [LStr "subject"; LStr "id"];
                   rows := [[Some (JStr "X"); Some (JStr "1")]] |}).
Proof.
  apply (pick_preferred_columns_idempotent one_ticket _ ["subject"; "nope"; "id"]).
  - repeat constructor; simpl; intuition discriminate.
  - repeat constructor; simpl; intuition discriminate.
  - reflexivity.
Defined.

End RenderingMore.

(* ------------------------------------------------------------------ *)
(** ** What the view shows *)

Module ViewMore.
Import Json Py Pandas Locator Tabular Shape ProjectorFacts ProjectionMore
       RenderingMore Samples MoreSamples.

Section View.
Variable normalize_irregular : list json -> outcome DataFrame.
Variable pd_DataFrame : json -> outcome DataFrame.
Variable to_csv : DataFrame -> string.
Variable json_loads : string -> outcome json.

Local Abbreviation view := (view_request_flow normalize_irregular pd_DataFrame to_csv json_loads).

Lemma interactive_table_calls t shown default_columns title :
  empty t = false ->
  pick_preferred_columns (Some t) default_columns = Returns (Some shown) ->
  interactive_table to_csv (Some t) default_columns title =
  done [st_subheader title;
        st_dataframe shown;
        st_download_button "Download CSV" (to_csv shown)
                           (lower (replace_space title) ++ ".csv") "text/csv"].
Proof.
  intros Hdata Hpick. unfold interactive_table. rewrite Hdata.
  destruct (pick_preferred_columns_cases t default_columns)
    as [[Hsame [He|Hp]]|(Hsel & _ & Hp)].
  - congruence.
  - rewrite Hsame in Hpick. injection Hpick as <-. now rewrite Hp.
  - rewrite Hsel in Hpick. injection Hpick as <-.
    destruct (present_columns t default_columns) as [|c cs] eqn:E; [congruence|].
    rewrite <- E. unfold getitem. now rewrite present_columns_getitem.
Qed.


(** X8: whatever the response, the view never draws an empty table:
    every frame handed to [st.dataframe] has at least one row and one
    column. *)
Theorem view_request_flow_never_draws_empty
        (status : option Z) (text : string) (j : json) (df : DataFrame)
        (Hdrawn : In (st_dataframe df) (fst (view status text j))) :
  empty df = false.
Proof.
  unfold view_request_flow in Hdrawn.
  destruct status as [code|]; [|destruct Hdrawn as [H|[]]; discriminate].
  destruct (truthy (parse_response json_loads text j));
    [|destruct Hdrawn as [H|[]]; discriminate].
  destruct (json_to_dataframe _ _ _) as [df0|e]; [|destruct Hdrawn].
  destruct (empty df0) eqn:He0; [destruct Hdrawn as [H|[]]; discriminate|].
  destruct (pick_returns df0 PREFERRED_VIEW_COLUMNS) as [r Hpick].
  pose proof (pick_result_empty _ _ _ Hpick) as Her. rewrite He0 in Her.
  rewrite Hpick in Hdrawn.
  destruct (pick_returns r PREFERRED_VIEW_COLUMNS) as [shown Hshown].
  rewrite (interactive_table_calls r shown _ _ Her Hshown) in Hdrawn.
  destruct Hdrawn as [H|[H|[H|[]]]]; try discriminate.
  injection H as <-. rewrite (pick_result_empty _ _ _ Hshown). exact Her.
Qed.

(** X9: a run of the view that ends normally has shown something. *)
Theorem view_request_flow_shows_something
        (status : option Z) (text : string) (j : json)
        (Hends : snd (view status text j) = Returns tt) :
  fst (view status text j) <> [].
Proof.
  unfold view_request_flow in *.
  destruct status as [code|]; [|discriminate].
  destruct (truthy (parse_response json_loads text j)); [|discriminate].
  destruct (json_to_dataframe _ _ _) as [df0|e]; [|discriminate].
  destruct (empty df0) eqn:He0; [discriminate|].
  destruct (pick_returns df0 PREFERRED_VIEW_COLUMNS) as [r Hpick].
  pose proof (pick_result_empty _ _ _ Hpick) as Her. rewrite He0 in Her.
  rewrite Hpick in *.
  destruct (pick_returns r PREFERRED_VIEW_COLUMNS) as [shown Hshown].
  rewrite (interactive_table_calls r shown _ _ Her Hshown). discriminate.
Qed.

(** X10: when the response converts to a table with data and unique
    labels, the view makes exactly three calls: the heading "Requests
    Export", the table projected once on the view columns, and a
    download of that same table named requests_export.csv. *)
Theorem view_request_flow_table
        (code : Z) (text : string) (j : json) (df : DataFrame)
        (Htruthy : truthy (parse_response json_loads text j) = true)
        (Hframe : json_to_dataframe normalize_irregular pd_DataFrame
                                    (parse_response json_loads text j) = Returns df)
        (Hdata : empty df = false)
        (Hcols : NoDup (columns df)) :
  exists shown,
    pick_preferred_columns (Some df) PREFERRED_VIEW_COLUMNS = Returns (Some shown) /\
    view (Some code) text j =
    done [st_subheader "Requests Export";
          st_dataframe shown;
          st_download_button "Download CSV" (to_csv shown)
                             "requests_export.csv" "text/csv"].
Proof.
  destruct (pick_returns df PREFERRED_VIEW_COLUMNS) as [r Hpick].
  pose proof (pick_result_empty _ _ _ Hpick) as Her. rewrite Hdata in Her.
  exists r. split; [exact Hpick|].
  unfold view_request_flow. rewrite Htruthy, Hframe, Hdata, Hpick.
  assert (Hview : NoDup PREFERRED_VIEW_COLUMNS).
  { unfold PREFERRED_VIEW_COLUMNS. repeat constructor; simpl; intuition discriminate. }
  exact (interactive_table_calls r r _ _ Her (pick_twice df r _ Hcols Hview Hpick)).
Qed.

(** X11: the view does not depend on whether the wrapper parsed the
    body: if [json.loads(text)] gives the value [r.json()] would have
    given, the view shows the same with that value or with [None] as
    third component. *)
Theorem view_request_flow_parses_text
        (status : option Z) (text : string) (v : json)
        (Hloads : json_loads text = Returns v) :
  view status text JNull = view status text v.
Proof.
  unfold view_request_flow, parse_response. cbn [is_none negb]. rewrite Hloads.
  destruct v; reflexivity.
Qed.
End View.


Lemma view_request_flow_table_witness :
  exists shown,
    pick_preferred_columns
      (Some {| columns := [LStr "id"; LStr "subject"; LStr "requester.name"];
               rows := [[Some (JStr "1"); Some (JStr "X"); Some (JStr "Bob")];
                        [Some (JStr "2"); Some (JStr "Y"); None]] |})
      PREFERRED_VIEW_COLUMNS = Returns (Some shown) /\
    view_request_flow (fun _ => no_frame) (fun _ => no_frame) csv_stub
                      (fun _ => unparsed) (Some 200%Z) "(body)" two_tickets =
    done [st_subheader "Requests Export";
          st_dataframe shown;
          st_download_button "Download CSV" (csv_stub shown)
                             "requests_export.csv" "text/csv"].
Proof.
  apply (view_request_flow_table
           (fun _ => no_frame) (fun _ => no_frame) csv_stub (fun _ => unparsed)
           200%Z "(body)" two_tickets).
  - reflexivity.
  - reflexivity.
  - reflexivity.
  - repeat constructor; simpl; intuition discriminate.
Defined.

Lemma view_request_flow_never_draws_empty_witness :
  empty {| columns := [LStr "id"; LStr "subject"; LStr "requester.name"];
           rows := [[Some (JStr "1"); Some (JStr "X"); Some (JStr "Bob")];
                    [Some (JStr "2"); Some (JStr "Y"); None]] |} = false.
Proof.
  apply (view_request_flow_never_draws_empty
           (fun _ => no_frame) (fun _ => no_frame) csv_stub (fun _ => unparsed)
           (Some 200%Z) "(body)" two_tickets).
  right. left. reflexivity.
Defined.

Lemma view_request_flow_shows_something_witness :
  fst (view_request_flow (fun _ => no_frame) (fun _ => no_frame) csv_stub
                         (fun _ => unparsed) (Some 502%Z) "Bad Gateway" JNull) <> [].
Proof.
  apply (view_request_flow_shows_something
           (fun _ => no_frame) (fun _ => no_frame) csv_stub (fun _ => unparsed)
           (Some 502%Z) "Bad Gateway" JNull).
  reflexivity.
Defined.

Lemma view_request_flow_parses_text_witness :
  view_request_flow (fun _ => no_frame) (fun _ => no_frame) csv_stub
                    (fun _ => Returns two_tickets) (Some 200%Z) "(body)" JNull =
  view_request_flow (fun _ => no_frame) (fun _ => no_frame) csv_stub
                    (fun _ => Returns two_tickets) (Some 200%Z) "(body)" two_tickets.
Proof.
  apply (view_request_flow_parses_text
           (fun _ => no_frame) (fun _ => no_frame) csv_stub
           (fun _ => Returns two_tickets) (Some 200%Z) "(body)" two_tickets).
  reflexivity.
Defined.

End ViewMore.

(* ------------------------------------------------------------------ *)
(** ** The name of the downloaded file *)

Module DownloadMore.
Import Json Py Pandas Tabular Shape ProjectorFacts ProjectionMore Samples MoreSamples.

Lemma lower_ascii_not_upper c : is_upper (lower_ascii c) = false.
Proof.
  unfold lower_ascii, is_upper.
  destruct (Nat.leb 65 (nat_of_ascii c) && Nat.leb (nat_of_ascii c) 90) eqn:E.
  - apply andb_true_iff in E as [H1 H2].
    apply Nat.leb_le in H1. apply Nat.leb_le in H2.
    rewrite nat_ascii_embedding by lia.
    apply andb_false_iff. right. apply Nat.leb_gt. lia.
  - exact E.
Qed.

Lemma lower_ascii_space c : lower_ascii c = " "%char -> c = " "%char.
Proof.
  unfold lower_ascii.
  destruct (Nat.leb 65 (nat_of_ascii c) && Nat.leb (nat_of_ascii c) 90) eqn:E;
    [|trivial].
  apply andb_true_iff in E as [H1 H2].
  apply Nat.leb_le in H1. apply Nat.leb_le in H2.
  intros H. apply (f_equal nat_of_ascii) in H.
  rewrite nat_ascii_embedding in H by lia.
  assert (Hs : nat_of_ascii " "%char = 32) by reflexivity.
  rewrite Hs in H. lia.
Qed.

Lemma replace_space_no_space s : ~ In " "%char (chars (replace_space s)).
Proof.
  induction s as [|c s IH]; simpl; [tauto|].
  intros [H|H]; [|contradiction].
  destruct (Ascii.eqb_spec c " "%char) as [->|Hne]; [discriminate | congruence].
Qed.

Lemma lower_chars s : chars (lower s) = map lower_ascii (chars s).
Proof. induction s as [|c s IH]; simpl; [reflexivity | now rewrite IH]. Qed.

Lemma lower_length s : String.length (lower s) = String.length s.
Proof. induction s as [|c s IH]; simpl; [reflexivity | now rewrite IH]. Qed.

Lemma replace_space_length s : String.length (replace_space s) = String.length s.
Proof. induction s as [|c s IH]; simpl; [reflexivity | now rewrite IH]. Qed.

Lemma lower_ascii_below c : nat_of_ascii c < 128 -> nat_of_ascii (lower_ascii c) < 128.
Proof.
  intros Hc. unfold lower_ascii.
  destruct (Nat.leb 65 (nat_of_ascii c) && Nat.leb (nat_of_ascii c) 90) eqn:E;
    [|exact Hc].
  apply andb_true_iff in E as [H1 H2].
  apply Nat.leb_le in H1. apply Nat.leb_le in H2.
  rewrite nat_ascii_embedding by lia. lia.
Qed.

Lemma stem_ascii s : ascii_text s -> ascii_text (lower (replace_space s)).
Proof.
  unfold ascii_text. induction s as [|c s IH]; cbn [chars replace_space lower];
    intros Hs; [constructor|].
  inversion Hs as [|? ? Hc Hrest]; subst. constructor; [|now apply IH].
  apply lower_ascii_below.
  destruct (Ascii.eqb c " "%char); [cbn; lia | exact Hc].
Qed.

(** X12: for an ASCII title, whenever [interactive_table] offers a
    download the file name is a stem followed by .csv; the stem is
    ASCII, as long as the title, and holds no space and no upper-case
    letter. *)
Theorem interactive_table_file_name
        (to_csv : DataFrame -> string) (df : option DataFrame)
        (default_columns : list string) (title label data file_name mime : string)
        (Hascii : ascii_text title)
        (Hoffered : In (st_download_button label data file_name mime)
                       (fst (interactive_table to_csv df default_columns title))) :
  exists stem,
    file_name = stem ++ ".csv" /\
    ascii_text stem /\
    String.length stem = String.length title /\
    forall c, In c (chars stem) -> c <> " "%char /\ is_upper c = false.
Proof.
  assert (Hname : file_name = lower (replace_space title) ++ ".csv").
  { unfold interactive_table in Hoffered.
    destruct df as [t|]; [|destruct Hoffered as [H|[]]; discriminate].
    destruct (empty t); [destruct Hoffered as [H|[]]; discriminate|].
    destruct (match present_columns t default_columns with
              | [] => Returns t
              | _ :: _ => getitem t (map LStr (present_columns t default_columns))
              end) as [shown|e].
    - destruct Hoffered as [H|[H|[H|[]]]]; try discriminate. now injection H.
    - destruct Hoffered as [H|[]]; discriminate. }
  exists (lower (replace_space title)). split; [exact Hname|].
  split; [now apply stem_ascii|]. split.
  - now rewrite lower_length, replace_space_length.
  - intros c Hc. rewrite lower_chars in Hc.
    apply in_map_iff in Hc as (c0 & <- & Hc0). split.
    + intros Hsp. apply lower_ascii_space in Hsp. subst c0.
      now apply (replace_space_no_space title).
    + apply lower_ascii_not_upper.
Qed.

Lemma interactive_table_file_name_witness :
  exists stem,
    "my_table.csv" = stem ++ ".csv" /\
    ascii_text stem /\
    String.length stem = String.length "My Table" /\
    forall c, In c (chars stem) -> c <> " "%char /\ is_upper c = false.
Proof.
  apply (interactive_table_file_name
           csv_stub (Some one_ticket) ["subject"] "My Table"
           "Download CSV" "csv" "my_table.csv" "text/csv").
  - unfold ascii_text. cbn [chars]. repeat constructor; cbn; lia.
  - right. right. left. reflexivity.
Defined.

End DownloadMore.

(* ------------------------------------------------------------------ *)
(** ** More about the conversion to a table *)

Module ConversionMore.
Import Json Py Pandas Locator Tabular Shape DictFacts LocatorFacts PandasFacts
       ProjectionMore LocatorMore Samples MoreSamples.

Lemma add_keys_In r : forall cols c,
  In c (add_keys cols r) <-> In c cols \/ In c (map fst r).
Proof.
  unfold add_keys. induction r as [|[k x] r IH]; intros cols c; cbn [fold_left map fst].
  - simpl. tauto.
  - rewrite IH. destruct (existsb (String.eqb k) cols) eqn:E.
    + apply existsb_exists in E as (k' & Hin & Heq).
      apply String.eqb_eq in Heq. subst k'.
      simpl. intuition (subst; auto).
    + rewrite in_app_iff. simpl. intuition.
Qed.

Lemma add_keys_NoDup r : forall cols, NoDup cols -> NoDup (add_keys cols r).
Proof.
  unfold add_keys. induction r as [|[k x] r IH]; intros cols Hnd; cbn [fold_left fst];
    [exact Hnd|].
  apply IH. destruct (existsb (String.eqb k) cols) eqn:E; [exact Hnd|].
  apply NoDup_app; [exact Hnd | repeat constructor; simpl; tauto |].
  intros c Hc [Heq|[]]. subst c.
  assert (Ht : existsb (String.eqb k) cols = true).
  { apply existsb_exists. exists k. split; [exact Hc | apply String.eqb_refl]. }
  congruence.
Qed.

Lemma fold_add_keys_In recs : forall cols c,
  In c (fold_left add_keys recs cols) <->
  In c cols \/ exists r, In r recs /\ In c (map fst r).
Proof.
  induction recs as [|r recs IH]; intros cols c; cbn [fold_left].
  - split; [now left | intros [H|(r & [] & _)]; exact H].
  - rewrite IH, add_keys_In. split.
    + intros [[H|H]|(r' & Hr' & Hc)].
      * now left.
      * right. exists r. split; [now left | exact H].
      * right. exists r'. split; [now right | exact Hc].
    + intros [H|(r' & [<-|Hr'] & Hc)].
      * left. now left.
      * left. now right.
      * right. now exists r'.
Qed.

Lemma fold_add_keys_NoDup recs : forall cols,
  NoDup cols -> NoDup (fold_left add_keys recs cols).
Proof.
  induction recs as [|r recs IH]; intros cols Hnd; cbn [fold_left]; [exact Hnd|].
  apply IH. now apply add_keys_NoDup.
Qed.

(** The frame of a list of flat rows: one row per element, unique
    labels, rows as wide as the label list. *)
Lemma DataFrame_of_records_shape recs :
  List.length (rows (DataFrame_of_records recs)) = List.length recs /\
  NoDup (columns (DataFrame_of_records recs)) /\
  rows_fit (DataFrame_of_records recs).
Proof.
  unfold DataFrame_of_records, rows_fit. cbn [columns rows]. repeat split.
  - apply length_map.
  - apply NoDup_map_LStr, fold_add_keys_NoDup. constructor.
  - apply Forall_forall. intros row Hrow.
    apply in_map_iff in Hrow as (r & <- & _). now rewrite !length_map.
Qed.

Section Conversion.
Variable normalize_irregular : list json -> outcome DataFrame.
Variable pd_DataFrame : json -> outcome DataFrame.

Local Abbreviation to_frame := (json_to_dataframe normalize_irregular pd_DataFrame).

(** X13: when a list is found inside a mapping, the table of the
    mapping is the table of that list alone: every entry of the mapping
    outside the located list is left out. *)
Theorem json_to_dataframe_of_located_list
        (d : pydict) (Hfound : find_first_list (JDict d) <> JNull) :
  to_frame (JDict d) = to_frame (find_first_list (JDict d)).
Proof.
  destruct (find_first_list_null_or_list (JDict d)) as [Hn|(l & Hl)]; [contradiction|].
  unfold Tabular.json_to_dataframe. now rewrite Hl.
Qed.

(** X14: when the located list holds mappings only, [json_to_dataframe]
    returns a table with one row per element, unique column labels and
    rows as wide as the label list, each label being the dotted path of
    a leaf of some element (the frame pandas builds being modelled from
    the specification). *)
Theorem json_to_dataframe_records
        (obj : json) (l : list json)
        (Hloc : locates obj l)
        (Hdicts : forallb isinstance_dict l = true) :
  exists df,
    to_frame obj = Returns df /\
    List.length (rows df) = List.length l /\
    NoDup (columns df) /\
    rows_fit df /\
    forall c, In c (columns df) ->
      exists v p x, In v l /\ In (p, x) (leaf_items [] v) /\ c = LStr (dotted p).
Proof.
  pose (recs := map (fun v => flatten (as_record v)) l).
  assert (Hnorm : json_normalize normalize_irregular (JList l) =
                  Returns (DataFrame_of_records recs)).
  { unfold json_normalize. destruct l as [|v l']; [reflexivity|].
    now rewrite Hdicts. }
  assert (Hframe : to_frame obj = Returns (DataFrame_of_records recs)).
  { pose proof (find_first_list_locates obj l Hloc) as Hfound.
    destruct obj as [ | b | n | s | items | d]; try (now inversion Hloc).
    - cbn in Hfound. injection Hfound as ->.
      unfold Tabular.json_to_dataframe. now rewrite Hnorm.
    - unfold Tabular.json_to_dataframe. rewrite Hfound. cbn [is_none negb].
      now rewrite Hnorm. }
  exists (DataFrame_of_records recs). split; [exact Hframe|].
  destruct (DataFrame_of_records_shape recs) as (Hlen & Hnd & Hfit).
  split; [now rewrite Hlen; unfold recs; rewrite length_map|].
  split; [exact Hnd|]. split; [exact Hfit|].
  intros c Hc. unfold DataFrame_of_records in Hc. cbn [columns] in Hc.
  apply in_map_iff in Hc as (k & <- & Hk).
  unfold union_keys in Hk. apply fold_add_keys_In in Hk as [[]|(r & Hr & Hkr)].
  unfold recs in Hr. apply in_map_iff in Hr as (v & <- & Hv).
  rewrite forallb_forall in Hdicts. specialize (Hdicts v Hv).
  destruct v as [ | | | | | d]; try discriminate. cbn [as_record] in Hkr.
  apply in_map_iff in Hkr as ([k' x] & Hk' & Hin). cbn [fst] in Hk'. subst k'.
  unfold flatten in Hin. apply flatten_walk_sound in Hin as [[]|(p & Hp & ->)].
  exists (JDict d), p, x. auto.
Qed.
End Conversion.

Lemma json_to_dataframe_of_located_list_witness :
  json_to_dataframe (fun _ => no_frame) (fun _ => no_frame) two_tickets =
  json_to_dataframe (fun _ => no_frame) (fun _ => no_frame) (JList tickets).
Proof.
  apply (json_to_dataframe_of_located_list
           (fun _ => no_frame) (fun _ => no_frame) two_tickets_entries).
  discriminate.
Defined.

Lemma json_to_dataframe_records_witness :
  exists df,
    json_to_dataframe (fun _ => no_frame) (fun _ => no_frame) two_tickets = Returns df /\
    List.length (rows df) = 2 /\
    NoDup (columns df).
Proof.
  assert (Hloc : locates two_tickets tickets).
  { apply locates_priority
      with (before := []) (k := "requests")
           (after := ["request"; "data"; "result"; "results"; "records"; "response"]).
    - reflexivity.
    - intros k' [].
    - reflexivity. }
  destruct (json_to_dataframe_records
              (fun _ => no_frame) (fun _ => no_frame) two_tickets tickets Hloc eq_refl)
    as (df & Hframe & Hlen & Hnd & _).
  exists df. split; [exact Hframe|]. split; [exact Hlen | exact Hnd].
Defined.

End ConversionMore.

(* ------------------------------------------------------------------ *)
(** ** More about the request wrappers *)

Module HttpMore.
Import Json Py Pandas Tabular Http Create Flows Samples MoreSamples.

Lemma safe_request_post_get x : safe_request_post x = safe_request_get x.
Proof. reflexivity. Qed.

Lemma prefix_iff sub : forall s,
  String.prefix sub s = true <-> exists b, s = sub ++ b.
Proof.
  induction sub as [|a sub IH]; intros s.
  - split; [intros _; now exists s | intros _; now destruct s].
  - destruct s as [|c s]; simpl.
    + split; [discriminate | intros [b Hb]; discriminate].
    + destruct (ascii_dec a c) as [->|Hne].
      * rewrite IH. split; intros [b Hb]; exists b; congruence.
      * split; [discriminate | intros [b Hb]; congruence].
Qed.

(** [sub in s] holds exactly when [s] has [sub] somewhere inside. *)
Lemma str_contains_iff sub : forall s,
  str_contains sub s = true <-> exists a b, s = a ++ sub ++ b.
Proof.
  induction s as [|c s IH]; cbn [str_contains].
  - destruct (String.prefix sub EmptyString) eqn:E.
    + split; [|reflexivity]. intros _. apply prefix_iff in E as [b Hb].
      now exists EmptyString, b.
    + split; [discriminate|]. intros (a & b & Hab).
      destruct a; [|discriminate]. simpl in Hab.
      assert (Ht : String.prefix sub EmptyString = true) by (apply prefix_iff; now exists b).
      congruence.
  - destruct (String.prefix sub (String c s)) eqn:E.
    + split; [|reflexivity]. intros _. apply prefix_iff in E as [b Hb].
      now exists EmptyString, b.
    + rewrite IH. split.
      * intros (a & b & ->). now exists (String c a), b.
      * intros (a & b & Hab). destruct a as [|c' a]; simpl in Hab.
        -- assert (Ht : String.prefix sub (String c s) = true)
             by (apply prefix_iff; now exists b).
           congruence.
        -- injection Hab as _ ->. now exists a, b.
Qed.

Lemma safe_request_get_null_status x body j :
  safe_request_get x = Returns (None, body, j) <->
  exists e, raised x e /\ isinstance_RequestException e = true /\
            body = str e /\ j = JNull.
Proof.
  unfold safe_request_get, raised. split.
  - destruct x as [r|e].
    + destruct (str_contains "application/json" (content_type r)) eqn:Ect;
        [|discriminate].
      destruct (json_ r) as [v|e] eqn:Ej; [discriminate|].
      destruct (isinstance_RequestException e) eqn:Er.
      * intros [= <- <-]. exists e. repeat split; auto.
        right. exists r. auto.
      * destruct (isinstance_ValueError e); discriminate.
    + destruct (isinstance_RequestException e) eqn:Er.
      * intros [= <- <-]. exists e. repeat split; auto.
      * destruct (isinstance_ValueError e); discriminate.
  - intros (e & [->|(r & -> & Hct & Hj)] & Hreq & -> & ->).
    + now rewrite Hreq.
    + now rewrite Hct, Hj, Hreq.
Qed.

(** X15: both wrappers return a null status exactly when a
    [RequestException] was raised, by the call or by [r.json()] on a
    response declared as JSON; the text is then that exception's
    message and the third component is [None]. *)
Theorem safe_request_null_status_iff
        (x : outcome Response) (body : string) (j : json) :
  (safe_request_get x = Returns (None, body, j) <->
   exists e, raised x e /\ isinstance_RequestException e = true /\
             body = str e /\ j = JNull) /\
  (safe_request_post x = Returns (None, body, j) <->
   exists e, raised x e /\ isinstance_RequestException e = true /\
             body = str e /\ j = JNull).
Proof.
  split; [|rewrite safe_request_post_get]; apply safe_request_get_null_status.
Qed.

(** X16: an exception that escapes either wrapper is an instance of
    neither class its clauses name: no [RequestException] and no
    [ValueError] ever reaches the caller. *)
Theorem safe_request_escapes_neither_class
        (x : outcome Response) (e : exn)
        (Hescapes : safe_request_get x = Raises e \/ safe_request_post x = Raises e) :
  isinstance_RequestException e = false /\ isinstance_ValueError e = false.
Proof.
  assert (H : safe_request_get x = Raises e)
    by (destruct Hescapes as [H|H]; [exact H | now rewrite <- safe_request_post_get]).
  clear Hescapes. unfold safe_request_get in H.
  destruct x as [r|e0].
  - destruct (str_contains "application/json" (content_type r)); [|discriminate].
    destruct (json_ r) as [v|e0]; [discriminate|].
    destruct (isinstance_RequestException e0) eqn:Er; [discriminate|].
    destruct (isinstance_ValueError e0) eqn:Ev; [discriminate|].
    injection H as <-. now split.
  - destruct (isinstance_RequestException e0) eqn:Er; [discriminate|].
    destruct (isinstance_ValueError e0) eqn:Ev.
    + injection H as <-. now split.
    + injection H as <-. now split.
Qed.

Lemma safe_request_escapes_neither_class_witness :
  isinstance_RequestException (UnboundLocalError "e") = false /\
  isinstance_ValueError (UnboundLocalError "e") = false.
Proof.
  apply (safe_request_escapes_neither_class (Raises header_not_latin1)).
  left. reflexivity.
Defined.

(** X17: the body is parsed exactly for a Content-Type that has
    application/json somewhere in it, parameters such as a character set
    included: then the value of [r.json()] is the third component;
    for any other Content-Type [r.json()] is not called and the third
    component is [None], the status and the text being returned in both
    cases. *)
Theorem safe_request_content_type (r : Response) :
  ((exists a b, content_type r = a ++ "application/json" ++ b) ->
   forall v, json_ r = Returns v ->
     safe_request_get (Returns r) = Returns (Some (status_code r), text r, v) /\
     safe_request_post (Returns r) = Returns (Some (status_code r), text r, v)) /\
  ((forall a b, content_type r <> a ++ "application/json" ++ b) ->
   safe_request_get (Returns r) = Returns (Some (status_code r), text r, JNull) /\
   safe_request_post (Returns r) = Returns (Some (status_code r), text r, JNull)).
Proof.
  split.
  - intros Hct v Hj. apply str_contains_iff in Hct.
    unfold safe_request_get, safe_request_post.
    now rewrite Hct, Hj.
  - intros Hct.
    assert (Hno : str_contains "application/json" (content_type r) = false).
    { destruct (str_contains "application/json" (content_type r)) eqn:E; [|reflexivity].
      apply str_contains_iff in E as (a & b & Hab). now apply Hct in Hab. }
    unfold safe_request_get, safe_request_post. now rewrite Hno.
Qed.

Lemma safe_request_content_type_witness :
  safe_request_get (Returns json_with_charset) = Returns (Some 200%Z, "(body)", two_tickets) /\
  safe_request_get (Returns html_page) = Returns (Some 502%Z, "Bad Gateway", JNull).
Proof.
  split.
  - apply (proj1 (safe_request_content_type json_with_charset)).
    + now exists EmptyString, "; charset=utf-8".
    + reflexivity.
  - apply (proj2 (safe_request_content_type html_page)).
    intros a b Hab.
    assert (H : str_contains "application/json" (content_type html_page) = true)
      by (apply str_contains_iff; now exists a, b).
    discriminate H.
Defined.

End HttpMore.

(* ------------------------------------------------------------------ *)
(** ** The flows behind their wrappers, and the create flow *)

Module FlowsMore.
Import Json Py Pandas Locator Tabular Http Create Flows Shape
       DictFacts PandasFacts ProjectorFacts ProjectionMore RenderingMore ViewMore
       HttpMore Samples MoreSamples.

Lemma pick_rows_length t r preferred :
  pick_preferred_columns (Some t) preferred = Returns (Some r) ->
  List.length (rows r) = List.length (rows t).
Proof.
  intros Hpick.
  destruct (pick_preferred_columns_cases t preferred) as [[H _]|[H _]];
    rewrite H in Hpick; injection Hpick as <-; [reflexivity|].
  unfold selected. cbn [rows]. apply length_map.
Qed.

Section Flows.
Variable normalize_irregular : list json -> outcome DataFrame.
Variable pd_DataFrame : json -> outcome DataFrame.
Variable to_csv : DataFrame -> string.
Variable json_loads : string -> outcome json.

Local Abbreviation view := (view_request_flow normalize_irregular pd_DataFrame to_csv json_loads).
Local Abbreviation create := (create_request_flow normalize_irregular pd_DataFrame to_csv json_loads).
Local Abbreviation get_then_view := (view_after_get normalize_irregular pd_DataFrame to_csv json_loads).

Lemma view_with_status_no_error code text j msg :
  ~ In (st_error msg) (fst (view (Some code) text j)).
Proof.
  unfold view_request_flow.
  destruct (truthy (parse_response json_loads text j));
    [|intros [H|[]]; discriminate].
  destruct (json_to_dataframe _ _ _) as [df0|e]; [|intros []].
  destruct (empty df0) eqn:He0; [intros [H|[]]; discriminate|].
  destruct (pick_returns df0 PREFERRED_VIEW_COLUMNS) as [r Hpick].
  pose proof (pick_result_empty _ _ _ Hpick) as Her. rewrite He0 in Her.
  rewrite Hpick.
  destruct (pick_returns r PREFERRED_VIEW_COLUMNS) as [shown Hshown].
  rewrite (interactive_table_calls to_csv r shown _ _ Her Hshown).
  intros [H|[H|[H|[]]]]; discriminate.
Qed.

(** X18: the view shows a "Request error" exactly when a
    [RequestException] was raised, by [requests.get] or by [r.json()] on
    a response declared as JSON, and the message shown is that
    exception's. *)
Theorem view_after_get_error_iff (x : outcome Response) (msg : string) :
  In (st_error msg) (fst (get_then_view x)) <->
  exists e, raised x e /\ isinstance_RequestException e = true /\
            msg = "Request error: " ++ str e.
Proof.
  unfold view_after_get.
  destruct (safe_request_get x) as [[[status body] j]|e0] eqn:E.
  - destruct status as [code|].
    + split.
      * intros H. now apply view_with_status_no_error in H.
      * intros (e & Hr & Hreq & _).
        assert (Hnull : safe_request_get x = Returns (None, str e, JNull)).
        { apply safe_request_get_null_status. exists e. auto. }
        congruence.
    + apply safe_request_get_null_status in E as (e & Hr & Hreq & -> & ->).
      cbn [view_request_flow done fst]. split.
      * intros [[= <-]|[]]. exists e. auto.
      * intros (e' & Hr' & Hreq' & ->).
        assert (Hnull : safe_request_get x = Returns (None, str e', JNull)).
        { apply safe_request_get_null_status. exists e'. auto. }
        assert (Hnull0 : safe_request_get x = Returns (None, str e, JNull)).
        { apply safe_request_get_null_status. exists e. auto. }
        left. congruence.
  - split; [intros []|].
    intros (e & Hr & Hreq & _).
    assert (Hnull : safe_request_get x = Returns (None, str e, JNull)).
    { apply safe_request_get_null_status. exists e. auto. }
    congruence.
Qed.

(** X19: the Content-Type of a response does not change what the view
    shows when the body parses: a response declared as JSON whose
    [r.json()] gives [v], and one with the same status and text not
    declared as JSON, for which [json.loads(text)] gives [v], are shown
    alike. *)
Theorem view_after_get_content_type
        (declared other : Response) (v : json)
        (Hstatus : status_code declared = status_code other)
        (Htext : text declared = text other)
        (Hdeclared : str_contains "application/json" (content_type declared) = true)
        (Hother : str_contains "application/json" (content_type other) = false)
        (Hjson : json_ declared = Returns v)
        (Hloads : json_loads (text other) = Returns v) :
  get_then_view (Returns declared) = get_then_view (Returns other).
Proof.
  unfold view_after_get, safe_request_get.
  rewrite Hdeclared, Hother, Hjson, Hstatus, Htext.
  unfold view_request_flow, parse_response. cbn [is_none negb]. rewrite Hloads.
  destruct v; reflexivity.
Qed.

(** X20: once a status is there, the create flow writes the line
    "HTTP <status>" before anything else, whatever follows, an escaping
    exception included. *)
Theorem create_request_flow_http_first (code : Z) (text : string) (j : json) :
  exists rest,
    fst (create (Some code) text j) = st_write ("HTTP " ++ str_of_int code) :: rest.
Proof.
  unfold create_request_flow.
  destruct (negb (truthy (parse_response json_loads text j))); [now eexists|].
  destruct (response_frame _ _ _) as [df|e]; [|now eexists].
  destruct (pick_preferred_columns (Some df) PREFERRED_CREATE_COLUMNS) as [clean|e];
    [|now eexists].
  destruct (match clean with Some t => empty t | None => true end); now eexists.
Qed.

(** X21: the create flow never draws an empty table either. *)
Theorem create_request_flow_never_draws_empty
        (status : option Z) (text : string) (j : json) (df : DataFrame)
        (Hdrawn : In (st (st_dataframe df)) (fst (create status text j))) :
  empty df = false.
Proof.
  unfold create_request_flow in Hdrawn.
  destruct status as [code|]; [|destruct Hdrawn as [H|[]]; discriminate].
  destruct (negb (truthy (parse_response json_loads text j)));
    [destruct Hdrawn as [H|[H|[]]]; discriminate|].
  destruct (response_frame _ _ _) as [df0|e];
    [|destruct Hdrawn as [H|[]]; discriminate].
  destruct (pick_returns df0 PREFERRED_CREATE_COLUMNS) as [r Hpick].
  rewrite Hpick in Hdrawn.
  destruct (empty r) eqn:Her; [destruct Hdrawn as [H|[H|[]]]; discriminate|].
  destruct (pick_returns r PREFERRED_CREATE_COLUMNS) as [shown Hshown].
  rewrite (interactive_table_calls to_csv r shown _ _ Her Hshown) in Hdrawn.
  cbn [fst done map] in Hdrawn.
  destruct Hdrawn as [H|[H|[H|[H|[]]]]]; try discriminate.
  injection H as <-. rewrite (pick_result_empty _ _ _ Hshown). exact Her.
Qed.

(** X22: when the parsed response holds a mapping under [request] with
    at least one leaf, the create flow tabulates that mapping alone, as
    one row: it writes the status line, then the heading "Create
    Response", the row projected on the create columns, and a download
    of it named create_response.csv; the other entries of the response
    play no part. *)
Theorem create_request_flow_request_object
        (code : Z) (text : string) (j : json) (d req : pydict)
        (Hparsed : parse_response json_loads text j = JDict d)
        (Hrequest : dict_get d "request" = Some (JDict req))
        (Hleaf : flatten req <> []) :
  exists shown,
    pick_preferred_columns
      (Some {| columns := map LStr (map fst (flatten req));
               rows := [map Some (map snd (flatten req))] |})
      PREFERRED_CREATE_COLUMNS = Returns (Some shown) /\
    List.length (rows shown) = 1 /\
    create (Some code) text j =
    ([st_write ("HTTP " ++ str_of_int code);
      st (st_subheader "Create Response");
      st (st_dataframe shown);
      st (st_download_button "Download CSV" (to_csv shown)
                             "create_response.csv" "text/csv")],
     Returns tt).
Proof.
  set (df := {| columns := map LStr (map fst (flatten req));
                rows := [map Some (map snd (flatten req))] |}).
  destruct (pick_returns df PREFERRED_CREATE_COLUMNS) as [r Hpick].
  assert (Hdata : empty df = false).
  { unfold empty, df. cbn [columns rows].
    destruct (flatten req) as [|kv rest]; [congruence | reflexivity]. }
  pose proof (pick_result_empty _ _ _ Hpick) as Her. rewrite Hdata in Her.
  exists r. split; [exact Hpick|]. split.
  - now rewrite (pick_rows_length _ _ _ Hpick).
  - assert (Hframe : response_frame normalize_irregular pd_DataFrame (JDict d) = Returns df).
    { unfold response_frame. rewrite Hrequest. cbn [json_normalize]. f_equal.
      apply DataFrame_of_one_record, flatten_NoDup. }
    assert (Htruthy : truthy (JDict d) = true).
    { destruct d; [discriminate Hrequest | reflexivity]. }
    unfold create_request_flow. rewrite Hparsed, Htruthy. cbn [negb].
    rewrite Hframe, Hpick, Her.
    assert (Hcols : NoDup (columns df)).
    { unfold df. cbn [columns]. apply NoDup_map_LStr, flatten_NoDup. }
    assert (Hcreate : NoDup PREFERRED_CREATE_COLUMNS).
    { unfold PREFERRED_CREATE_COLUMNS. repeat constructor; simpl; intuition discriminate. }
    now rewrite (interactive_table_calls to_csv r r _ _ Her
                   (pick_twice df r _ Hcols Hcreate Hpick)).
Qed.
End Flows.

Lemma view_after_get_content_type_witness :
  view_after_get (fun _ => no_frame) (fun _ => no_frame) csv_stub
                 (fun _ => Returns two_tickets) (Returns json_with_charset) =
  view_after_get (fun _ => no_frame) (fun _ => no_frame) csv_stub
                 (fun _ => Returns two_tickets) (Returns json_as_plain_text).
Proof.
  apply (view_after_get_content_type
           (fun _ => no_frame) (fun _ => no_frame) csv_stub
           (fun _ => Returns two_tickets)
           json_with_charset json_as_plain_text two_tickets);
    reflexivity.
Defined.

Lemma create_request_flow_never_draws_empty_witness :
  empty created_row = false.
Proof.
  apply (create_request_flow_never_draws_empty
           (fun _ => no_frame) (fun _ => no_frame) csv_stub (fun _ => unparsed)
           (Some 200%Z) "(body)" (JDict created)).
  right. right. left. reflexivity.
Defined.

Lemma create_request_flow_request_object_witness :
  exists shown,
    pick_preferred_columns
      (Some {| columns := [LStr "id"; LStr "subject"; LStr "status.name"];
               rows := [[Some (JStr "7"); Some (JStr "TEST"); Some (JStr "Open")]] |})
      PREFERRED_CREATE_COLUMNS = Returns (Some shown) /\
    List.length (rows shown) = 1 /\
    create_request_flow (fun _ => no_frame) (fun _ => no_frame) csv_stub
                        (fun _ => unparsed) (Some 200%Z) "(body)" (JDict created) =
    ([st_write "HTTP 200";
      st (st_subheader "Create Response");
      st (st_dataframe shown);
      st (st_download_button "Download CSV" (csv_stub shown)
                             "create_response.csv" "text/csv")],
     Returns tt).
Proof.
  apply (create_request_flow_request_object
           (fun _ => no_frame) (fun _ => no_frame) csv_stub (fun _ => unparsed)
           200%Z "(body)" (JDict created) created
           [("id", JStr "7"); ("subject", JStr "TEST");
            ("status", JDict [("name", JStr "Open")])]).
  - reflexivity.
  - reflexivity.
  - intros H. vm_compute in H. discriminate H.
Defined.

End FlowsMore.
